(** * Request router, agents and LLM gateway of the provider-network dashboard

    A shallow embedding of the [agents] package: the gateway of
    [BaseAgent] ([call_llm], [_clean_llm_response]), [process_request] of
    the three agents, and [AgentOrchestrator] (classification, request
    building, routing, integration, conversation log), with the properties
    of the classifier, the gateway and the router proved over it.

    - Python [str] values are [string]s: sequences of code points below
      256 (Latin-1), on which [str.lower], [str.strip], [str.split] and
      [in] are written out as Python defines them.
    - Dicts, lists and scalars are values of one type [pyval]; a dict
      keeps its insertion order.
    - Code that may raise returns a [result]; code that also sends
      requests, reads the clock or touches the conversation log is a
      computation [M] over an explicit [world].
    - A global name is resolved when the statement using it runs, in the
      namespace of the module that defines the function; the namespaces are
      what the import statements and the class statement of each module
      bind.  The relative imports are read as naming the modules of this
      package.
    - The transport, the clock and the context formatters are parameters
      ([env]); every property is proved for all of them. *)

From Stdlib Require Import String Ascii List Bool Arith ZArith Lia.
From Stdlib Require Import PrimFloat.
Import ListNotations.
Set Warnings "-register-all".
Open Scope string_scope.
Open Scope list_scope.

(* ================================================================= *)
(** * Part I. Definitions *)
(* ================================================================= *)

(* ----------------------------------------------------------------- *)
(** ** Python strings *)

Module PyStr.

(** [str.lower] on one code point: A-Z, and the Latin-1 capitals
    U+00C0..U+00DE except the multiplication sign U+00D7, move up by 32. *)
Definition chr_lower (c : ascii) : ascii :=
  let n := nat_of_ascii c in
  if (((65 <=? n) && (n <=? 90)) || ((192 <=? n) && (n <=? 222) && negb (n =? 215)))%nat
  then ascii_of_nat (n + 32)
  else c.

(** [s.lower()] *)
Fixpoint lower (s : string) : string :=
  match s with
  | EmptyString => EmptyString
  | String c s' => String (chr_lower c) (lower s')
  end.

(** [s.startswith(k)] *)
Fixpoint starts_with (k s : string) : bool :=
  match k, s with
  | EmptyString, _ => true
  | String _ _, EmptyString => false
  | String a k', String b s' => Ascii.eqb a b && starts_with k' s'
  end.

(** [k in s]: [k] occurs in [s] at some offset. *)
Fixpoint str_in (k s : string) : bool :=
  starts_with k s ||
  match s with
  | EmptyString => false
  | String _ s' => str_in k s'
  end.

(** [any(k in s for k in ks)] *)
Definition any_in (ks : list string) (s : string) : bool :=
  existsb (fun k => str_in k s) ks.

(** [s.split(sep)] for a one-character separator; never the empty list. *)
Fixpoint split (sep : ascii) (s : string) : list string :=
  match s with
  | EmptyString => [EmptyString]
  | String c s' =>
      if Ascii.eqb c sep then EmptyString :: split sep s'
      else match split sep s' with
           | [] => [String c EmptyString]
           | h :: t => String c h :: t
           end
  end.

(** [sep.join(parts)] *)
Fixpoint join (sep : string) (parts : list string) : string :=
  match parts with
  | [] => EmptyString
  | [p] => p
  | p :: rest => p ++ sep ++ join sep rest
  end.

(** [c.isspace()] below U+0100: TAB..CR, FS..US, space, NEL and NBSP. *)
Definition is_space (c : ascii) : bool :=
  let n := nat_of_ascii c in
  (((9 <=? n) && (n <=? 13)) || ((28 <=? n) && (n <=? 32)) || (n =? 133) || (n =? 160))%nat.

(** [s.lstrip()] *)
Fixpoint lstrip (s : string) : string :=
  match s with
  | EmptyString => EmptyString
  | String c s' => if is_space c then lstrip s' else s
  end.

(** [s.rstrip()] *)
Fixpoint rstrip (s : string) : string :=
  match s with
  | EmptyString => EmptyString
  | String c s' =>
      match rstrip s' with
      | EmptyString => if is_space c then EmptyString else String c EmptyString
      | r => String c r
      end
  end.

(** [s.strip()] *)
Definition strip (s : string) : string := rstrip (lstrip s).

(** [s[:n]] *)
Fixpoint take (n : nat) (s : string) : string :=
  match n, s with
  | O, _ => EmptyString
  | _, EmptyString => EmptyString
  | S n', String c s' => String c (take n' s')
  end.

(** The line feed and the double quote, as one-character strings. *)
Definition LF : ascii := ascii_of_nat 10.
Definition nl : string := String LF EmptyString.
Definition dq : string := String (ascii_of_nat 34) EmptyString.

End PyStr.
Import PyStr.

(* ----------------------------------------------------------------- *)
(** ** Intent classification ([AgentOrchestrator._classify_intent]) *)

Record Intent := mkIntent {
  primary_agent : string;
  secondary_agents : list string;
  complexity : string;
  keywords_found : list string
}.

Definition cost_keywords : list string :=
  ["cost"; "save"; "savings"; "expensive"; "budget"; "reduce"; "optimize"; "financial"].

Definition analysis_keywords : list string :=
  ["analyze"; "performance"; "quality"; "score"; "compare"; "benchmark"; "trend"].

Definition report_keywords : list string :=
  ["report"; "summary"; "document"; "generate"; "download"; "pdf"; "presentation"].

Definition complex_keywords : list string :=
  ["comprehensive"; "detailed"; "full analysis"; "complete"; "everything"].

(** The intent the function starts from. *)
Definition default_intent : Intent :=
  {| primary_agent := "network_analysis";
     secondary_agents := [];
     complexity := "simple";
     keywords_found := [] |}.

(** [[k for k in ks if k in query_lower]] *)
Definition found_in (ks : list string) (query_lower : string) : list string :=
  filter (fun k => str_in k query_lower) ks.

Definition _classify_intent (user_query : string) : Intent :=
  let query_lower := lower user_query in
  let intent := default_intent in
  if any_in complex_keywords query_lower then
    {| primary_agent := "multi_agent";
       secondary_agents := ["network_analysis"; "cost_optimization"; "report_generation"];
       complexity := "complex";
       keywords_found := keywords_found intent |}
  else if any_in cost_keywords query_lower then
    {| primary_agent := "cost_optimization";
       secondary_agents := secondary_agents intent;
       complexity := complexity intent;
       keywords_found := keywords_found intent ++ found_in cost_keywords query_lower |}
  else if any_in report_keywords query_lower then
    {| primary_agent := "report_generation";
       secondary_agents := secondary_agents intent;
       complexity := complexity intent;
       keywords_found := keywords_found intent ++ found_in report_keywords query_lower |}
  else if any_in analysis_keywords query_lower then
    {| primary_agent := "network_analysis";
       secondary_agents := secondary_agents intent;
       complexity := complexity intent;
       keywords_found := keywords_found intent ++ found_in analysis_keywords query_lower |}
  else intent.

(* ----------------------------------------------------------------- *)
(** ** Python values, exceptions and effects *)

(** The values that requests, results and decoded JSON bodies are made of.
    A [dict] keeps its keys in insertion order. *)
Inductive pyval :=
| PNone
| PBool (b : bool)
| PInt (z : Z)
| PFloat (f : float)
| PStr (s : string)
| PList (l : list pyval)
| PDict (d : list (string * pyval)).

Definition dict := list (string * pyval).

(** [d.get(k, default)] *)
Fixpoint dict_get (k : string) (d : dict) (default : pyval) : pyval :=
  match d with
  | [] => default
  | (k', v) :: d' => if String.eqb k k' then v else dict_get k d' default
  end.

(** [d[k] = v] *)
Fixpoint dict_set (k : string) (v : pyval) (d : dict) : dict :=
  match d with
  | [] => [(k, v)]
  | (k', v') :: d' => if String.eqb k k' then (k, v) :: d' else (k', v') :: dict_set k v d'
  end.

(** [v == s] for a string literal [s] *)
Definition py_eq_str (v : pyval) (s : string) : bool :=
  match v with
  | PStr t => String.eqb t s
  | _ => false
  end.

(** [x in xs] for a list of strings *)
Definition str_mem (x : string) (xs : list string) : bool :=
  existsb (String.eqb x) xs.

(** [type(v).__name__] *)
Definition type_name (v : pyval) : string :=
  match v with
  | PNone => "NoneType"
  | PBool _ => "bool"
  | PInt _ => "int"
  | PFloat _ => "float"
  | PStr _ => "str"
  | PList _ => "list"
  | PDict _ => "dict"
  end.

(** The exception classes the code tells apart: [requests]' [Timeout]
    (with its subclasses), every other [RequestException], and the
    remaining subclasses of [Exception].  What is not an [Exception]
    ([KeyboardInterrupt], [SystemExit]) does not arise from the code and
    is left out. *)
Inductive exn_class :=
| Timeout
| RequestException
| NameError
| AttributeError
| TypeError
| ValueError
| KeyError
| IndexError
| OtherException.

(** An exception: its class and [str(e)]. *)
Record exn := mkExn { exn_cls : exn_class; exn_str : string }.

(** [isinstance(e, requests.exceptions.Timeout)] *)
Definition is_timeout (e : exn) : bool :=
  match exn_cls e with Timeout => true | _ => false end.

(** [isinstance(e, requests.exceptions.RequestException)]; [Timeout] is
    one of its subclasses. *)
Definition is_request_exception (e : exn) : bool :=
  match exn_cls e with Timeout | RequestException => true | _ => false end.

Inductive result (A : Type) :=
| Ok (a : A)
| Raise (e : exn).
Arguments Ok {A} a.
Arguments Raise {A} e.

(** Attribute lookup that fails: [v.attr] on a value without [attr]. *)
Definition no_attribute {A} (owner attr : string) : result A :=
  Raise (mkExn AttributeError
           ("'" ++ owner ++ "' object has no attribute '" ++ attr ++ "'")).

(** [v.get(k, default)] on an arbitrary value *)
Definition py_get (v : pyval) (k : string) (default : pyval) : result pyval :=
  match v with
  | PDict d => Ok (dict_get k d default)
  | _ => no_attribute (type_name v) "get"
  end.

(** [v[0]] on an arbitrary value; the keys of a decoded JSON object are
    strings, so [0] is never among them. *)
Definition py_getitem0 (v : pyval) : result pyval :=
  match v with
  | PList (x :: _) => Ok x
  | PList [] => Raise (mkExn IndexError "list index out of range")
  | PStr (String c _) => Ok (PStr (String c EmptyString))
  | PStr EmptyString => Raise (mkExn IndexError "string index out of range")
  | PDict _ => Raise (mkExn KeyError "0")
  | _ => Raise (mkExn TypeError ("'" ++ type_name v ++ "' object is not subscriptable"))
  end.

(** The body of one POST to the serving endpoint, with the URL, the
    bearer header and the timeout it is sent with. *)
Record llm_call := mkCall {
  call_url : string;
  call_authorization : string;
  call_prompt : string;
  call_max_tokens : Z;
  call_temperature : float;
  call_top_p : float;
  call_repetition_penalty : float;
  call_timeout : Z
}.

(** What the code uses of a [requests.Response]: two methods, each of
    which may raise. *)
Record response := mkResponse {
  raise_for_status : result unit;
  json : result pyval
}.

(** The global names bound in each module once its imports and its class
    statement have run. *)
Record namespaces := mkNamespaces {
  ns_network_analyzer : list string;
  ns_cost_optimizer : list string;
  ns_report_generator : list string;
  ns_orchestrator : list string
}.

Definition repo_namespaces : namespaces :=
  {| ns_network_analyzer := ["Dict"; "Any"; "List"; "pd"; "BaseAgent"; "NetworkAnalyzerAgent"];
     ns_cost_optimizer := ["Dict"; "Any"; "List"; "BaseAgent"; "CostOptimizerAgent"];
     ns_report_generator := ["Dict"; "Any"; "List"; "BaseAgent"; "ReportGeneratorAgent"];
     ns_orchestrator :=
       ["Dict"; "Any"; "List"; "Optional"; "json"; "BaseAgent"; "NetworkAnalyzerAgent";
        "CostOptimizerAgent"; "ReportGeneratorAgent"; "AgentOrchestrator"] |}.

(** Everything outside the code: the HTTP transport, the clock, the
    module namespaces, [str()] of a value that is not a string, and the
    context formatters.  The formatters interpolate numbers through
    Python's format mini-language ([:.1f], [:,.0f]) and may raise on
    malformed data; their text only ever ends up inside a prompt, so they
    are taken as fallible functions of the data they are given. *)
Record env := mkEnv {
  post : nat -> llm_call -> result response;
  isoformat_now : nat -> string;
  ns : namespaces;
  py_str_other : pyval -> string;
  _format_provider_context : pyval -> pyval -> result string;
  _format_network_context : pyval -> result string;
  _format_cost_context : pyval -> pyval -> pyval -> pyval -> result string;
  _format_executive_context : pyval -> result string;
  _format_provider_diagnostics_context : pyval -> result string
}.

(** The mutable state: the calls sent to the endpoint so far, the number
    of clock readings so far, and the orchestrator's
    [conversation_history]. *)
Record world := mkWorld {
  llm_calls : list llm_call;
  clock_reads : nat;
  conversation_history : list pyval
}.

(** Computations that read and change the world and may raise. *)
Definition M (A : Type) : Type := world -> result A * world.

Definition ret {A} (a : A) : M A := fun w => (Ok a, w).

Definition raise {A} (e : exn) : M A := fun w => (Raise e, w).

Definition lift {A} (r : result A) : M A := fun w => (r, w).

Definition bind {A B} (m : M A) (f : A -> M B) : M B :=
  fun w =>
    match m w with
    | (Ok a, w') => f a w'
    | (Raise e, w') => (Raise e, w')
    end.

(** [try: m  except Exception as e: h e] *)
Definition try_except {A} (m : M A) (h : exn -> M A) : M A :=
  fun w =>
    match m w with
    | (Ok a, w') => (Ok a, w')
    | (Raise e, w') => h e w'
    end.

Notation "x <- m ;; k" := (bind m (fun x => k))
  (at level 61, m at next level, right associativity).

(** [f"{v}"] *)
Definition fstr (E : env) (v : pyval) : string :=
  match v with
  | PStr s => s
  | _ => py_str_other E v
  end.

(** [datetime.now().isoformat()] evaluated in a module whose global
    names are [globals]: the name [datetime] is looked up first. *)
Definition now_isoformat (E : env) (globals : list string) : M string :=
  fun w =>
    if str_mem "datetime" globals
    then (Ok (isoformat_now E (clock_reads w)),
          {| llm_calls := llm_calls w;
             clock_reads := S (clock_reads w);
             conversation_history := conversation_history w |})
    else (Raise (mkExn NameError "name 'datetime' is not defined"), w).

(** [requests.post(url, headers=headers, json=data, timeout=60)] *)
Definition requests_post (E : env) (call : llm_call) : M response :=
  fun w =>
    (post E (length (llm_calls w)) call,
     {| llm_calls := llm_calls w ++ [call];
        clock_reads := clock_reads w;
        conversation_history := conversation_history w |}).

(* ----------------------------------------------------------------- *)
(** ** The LLM gateway ([BaseAgent]) *)

(** The attributes [__init__] sets on an agent. *)
Record agent := mkAgent {
  workspace_url : string;
  model_endpoint : string;
  token : string
}.

Definition skip_phrases : list string :=
  ["human:"; "assistant:"; "user:"; "system:"; "response:"].

(** The [for line in lines] loop of [_clean_llm_response]. *)
Definition clean_loop (lines : list string) : list string :=
  fold_left
    (fun cleaned_lines line =>
       if negb (any_in skip_phrases (lower line))
       then cleaned_lines ++ [line]
       else cleaned_lines)
    lines [].

(** [_clean_llm_response] on a [str]. *)
Definition clean_text (response : string) : string :=
  let lines := split LF response in
  let cleaned_lines := clean_loop lines in
  let cleaned_response := strip (join nl cleaned_lines) in
  if (2000 <? String.length cleaned_response)%nat
  then (take 2000 cleaned_response ++ "...")%string
  else cleaned_response.

(** [_clean_llm_response] on whatever the response body held: anything
    but a [str] has no [split]. *)
Definition _clean_llm_response (response : pyval) : result string :=
  match response with
  | PStr s => Ok (clean_text s)
  | _ => no_attribute (type_name response) "split"
  end.

(** The [try] block of [call_llm]. *)
Definition llm_attempt (E : env) (call : llm_call) : M string :=
  response <- requests_post E call ;;
  _ <- lift (raise_for_status response) ;;
  result <- lift (json response) ;;
  predictions <- lift (py_get result "predictions" (PList [PDict []])) ;;
  first <- lift (py_getitem0 predictions) ;;
  generated_text <- lift (py_get first "generated_text" (PStr "")) ;;
  lift (_clean_llm_response generated_text).

Definition timeout_sentinel : string := "Request timed out. Please try again.".
Definition request_error_sentinel (e : exn) : string :=
  "Sorry, I encountered an error: " ++ exn_str e.
Definition unexpected_sentinel : string :=
  "An unexpected error occurred. Please try again.".

(** The three [except] clauses of [call_llm], tried in order. *)
Definition llm_handler (e : exn) : M string :=
  if is_timeout e then ret timeout_sentinel
  else if is_request_exception e then ret (request_error_sentinel e)
  else ret unexpected_sentinel.

Definition build_call (self : agent) (prompt : string) (max_tokens : Z)
    (temperature : float) : llm_call :=
  {| call_url := workspace_url self ++ "/serving-endpoints/" ++ model_endpoint self
                 ++ "/invocations";
     call_authorization := "Bearer " ++ token self;
     call_prompt := prompt;
     call_max_tokens := max_tokens;
     call_temperature := temperature;
     call_top_p := 0x1.ccccccccccccdp-1%float;
     call_repetition_penalty := 0x1.199999999999ap+0%float;
     call_timeout := 60 |}.

Definition call_llm (E : env) (self : agent) (prompt : string) (max_tokens : Z)
    (temperature : float) : M string :=
  try_except (llm_attempt E (build_call self prompt max_tokens temperature)) llm_handler.

(** The defaults of [call_llm]: [max_tokens=1000], [temperature=0.3]. *)
Definition default_max_tokens : Z := 1000.
Definition default_temperature : float := 0x1.3333333333333p-2%float.

(* ----------------------------------------------------------------- *)
(** ** The agents *)

Inductive agent_class :=
| NetworkAnalyzerAgent
| CostOptimizerAgent
| ReportGeneratorAgent.

(** [self.__class__.__name__] *)
Definition class_name (c : agent_class) : string :=
  match c with
  | NetworkAnalyzerAgent => "NetworkAnalyzerAgent"
  | CostOptimizerAgent => "CostOptimizerAgent"
  | ReportGeneratorAgent => "ReportGeneratorAgent"
  end.

(** [self.name(...)] for a method no class defines. *)
Definition missing_method {A} (c : agent_class) (name : string) : M A :=
  lift (no_attribute (class_name c) name).

(** The [message] each [process_request] puts next to [error]. *)
Definition failure_message (c : agent_class) : string :=
  match c with
  | NetworkAnalyzerAgent => "Failed to complete network analysis"
  | CostOptimizerAgent => "Failed to complete cost optimization analysis"
  | ReportGeneratorAgent => "Failed to generate report"
  end.

(** The dict built by the [except Exception as e] clause. *)
Definition failure_result (c : agent_class) (e : exn) : pyval :=
  PDict [("success", PBool false);
         ("error", PStr (exn_str e));
         ("message", PStr (failure_message c))].

(** *** [NetworkAnalyzerAgent] *)

Definition NetworkAnalyzerAgent_system_prompt : string :=
  join nl
    [ "";
      "        You are a Network Analysis Expert specializing in healthcare provider networks.";
      "        Your role is to analyze provider performance, identify trends, and provide insights.";
      "        ";
      "        Key responsibilities:";
      "        - Analyze provider quality scores and efficiency metrics";
      "        - Identify top and bottom performers";
      "        - Calculate network averages and benchmarks";
      "        - Provide specific, data-driven insights";
      "        ";
      "        Always provide:";
      "        1. Clear performance summaries";
      "        2. Specific metrics and comparisons";
      "        3. Actionable insights";
      "        4. Risk assessments where applicable";
      "        ";
      "        Keep responses concise, data-focused, and professional.";
      "        " ]%string.

Definition provider_performance_prompt (context : string) : string :=
  join nl
    [ "";
      "        " ++ NetworkAnalyzerAgent_system_prompt;
      "        ";
      "        Provider Performance Analysis Request:";
      "        " ++ context;
      "        ";
      "        Please provide a comprehensive performance analysis including:";
      "        1. Performance summary (scores, efficiency, quality)";
      "        2. Comparison to network averages";
      "        3. Strengths and areas for improvement";
      "        4. Specific recommendations";
      "        5. Risk assessment";
      "        ";
      "        Format as a structured analysis with clear sections.";
      "        " ]%string.

Definition network_summary_prompt (context : string) : string :=
  join nl
    [ "";
      "        " ++ NetworkAnalyzerAgent_system_prompt;
      "        ";
      "        Network Summary Analysis:";
      "        " ++ context;
      "        ";
      "        Provide a comprehensive network performance summary:";
      "        1. Overall network health assessment";
      "        2. Key performance indicators";
      "        3. Top performers and concerning providers";
      "        4. Geographic coverage analysis";
      "        5. Priority improvement areas";
      "        ";
      "        Focus on actionable insights for network management.";
      "        " ]%string.

Definition _analyze_provider_performance (E : env) (self : agent)
    (data provider_id : pyval) : M pyval :=
  context <- lift (_format_provider_context E data provider_id) ;;
  let prompt := provider_performance_prompt context in
  analysis <- call_llm E self prompt default_max_tokens default_temperature ;;
  timestamp <- now_isoformat E (ns_network_analyzer (ns E)) ;;
  ret (PDict [("success", PBool true);
              ("analysis_type", PStr "provider_performance");
              ("provider_id", provider_id);
              ("analysis", PStr analysis);
              ("timestamp", PStr timestamp)]).

Definition _analyze_network_summary (E : env) (self : agent) (data : pyval) : M pyval :=
  context <- lift (_format_network_context E data) ;;
  let prompt := network_summary_prompt context in
  analysis <- call_llm E self prompt default_max_tokens default_temperature ;;
  timestamp <- now_isoformat E (ns_network_analyzer (ns E)) ;;
  ret (PDict [("success", PBool true);
              ("analysis_type", PStr "network_summary");
              ("analysis", PStr analysis);
              ("timestamp", PStr timestamp)]).

(** The [try] block of [NetworkAnalyzerAgent.process_request]. *)
Definition network_dispatch (E : env) (self : agent)
    (analysis_type provider_data specific_provider : pyval) : M pyval :=
  if py_eq_str analysis_type "provider_performance" then
    _analyze_provider_performance E self provider_data specific_provider
  else if py_eq_str analysis_type "network_summary" then
    _analyze_network_summary E self provider_data
  else if py_eq_str analysis_type "quality_trends" then
    missing_method NetworkAnalyzerAgent "_analyze_quality_trends"
  else if py_eq_str analysis_type "cost_analysis" then
    missing_method NetworkAnalyzerAgent "_analyze_cost_performance"
  else
    missing_method NetworkAnalyzerAgent "_general_network_analysis".

(** *** [CostOptimizerAgent] *)

Definition CostOptimizerAgent_system_prompt : string :=
  join nl
    [ "";
      "        You are a Healthcare Cost Optimization Expert with deep expertise in:";
      "        - Provider cost analysis and benchmarking";
      "        - Contract negotiation strategies";
      "        - Network optimization for cost savings";
      "        - ROI analysis and financial modeling";
      "        - Value-based care principles";
      "        ";
      "        Your goal is to identify cost savings opportunities while maintaining or improving quality.";
      "        ";
      "        Always provide:";
      "        1. Specific cost savings amounts and percentages";
      "        2. Risk assessment for each recommendation";
      "        3. Implementation timelines";
      "        4. Impact on quality and access";
      "        5. Actionable next steps";
      "        ";
      "        Be precise with financial calculations and realistic about achievable savings.";
      "        " ]%string.

Definition cost_reduction_prompt (context : string) : string :=
  join nl
    [ "";
      "        " ++ CostOptimizerAgent_system_prompt;
      "        ";
      "        Cost Reduction Strategy Request:";
      "        " ++ context;
      "        ";
      "        Generate 3-4 specific cost reduction strategies that achieve the target savings:";
      "        ";
      "        For each strategy, provide:";
      "        1. Strategy name and description";
      "        2. Specific providers/actions involved";
      "        3. Projected savings ($ amount and %)";
      "        4. Risk level (Low/Medium/High)";
      "        5. Implementation timeline";
      "        6. Quality impact assessment";
      "        7. Step-by-step implementation plan";
      "        ";
      "        Ensure strategies are realistic and consider the constraints provided.";
      "        Prioritize strategies by potential savings and feasibility.";
      "        " ]%string.

Definition _generate_cost_reduction_strategies (E : env) (self : agent)
    (data target savings_type constraints : pyval) : M pyval :=
  context <- lift (_format_cost_context E data target savings_type constraints) ;;
  let prompt := cost_reduction_prompt context in
  strategies <- call_llm E self prompt 1500 default_temperature ;;
  timestamp <- now_isoformat E (ns_cost_optimizer (ns E)) ;;
  ret (PDict [("success", PBool true);
              ("optimization_type", PStr "cost_reduction");
              ("target_savings", target);
              ("savings_type", savings_type);
              ("strategies", PStr strategies);
              ("timestamp", PStr timestamp)]).

(** The [try] block of [CostOptimizerAgent.process_request]. *)
Definition cost_dispatch (E : env) (self : agent)
    (optimization_type target_savings savings_type provider_data constraints : pyval)
    : M pyval :=
  if py_eq_str optimization_type "cost_reduction" then
    _generate_cost_reduction_strategies E self provider_data target_savings
      savings_type constraints
  else if py_eq_str optimization_type "contract_analysis" then
    missing_method CostOptimizerAgent "_analyze_contract_opportunities"
  else if py_eq_str optimization_type "provider_replacement" then
    missing_method CostOptimizerAgent "_analyze_provider_replacement_options"
  else if py_eq_str optimization_type "network_efficiency" then
    missing_method CostOptimizerAgent "_analyze_network_efficiency"
  else
    missing_method CostOptimizerAgent "_general_cost_analysis".

(** *** [ReportGeneratorAgent] *)

Definition ReportGeneratorAgent_system_prompt : string :=
  join nl
    [ "";
      "        You are a Healthcare Network Reporting Specialist with expertise in creating:";
      "        - Executive summaries and board presentations";
      "        - Detailed provider performance reports";
      "        - Regulatory compliance documentation";
      "        - Strategic analysis reports";
      "        - Network optimization recommendations";
      "        ";
      "        Your reports should be:";
      "        1. Clear and accessible to non-technical audiences";
      "        2. Well-structured with logical flow";
      "        3. Data-driven with specific metrics";
      "        4. Action-oriented with clear recommendations";
      "        5. Professional and suitable for executive review";
      "        ";
      "        Use simple language while maintaining professional tone.";
      "        Include executive summaries, key findings, and actionable recommendations.";
      "        " ]%string.

Definition executive_summary_prompt (audience context : string) : string :=
  join nl
    [ "";
      "        " ++ ReportGeneratorAgent_system_prompt;
      "        ";
      "        Generate an Executive Summary for " ++ audience ++ " with the following network data:";
      "        " ++ context;
      "        ";
      "        Structure the report as follows:";
      "        ";
      "        # EXECUTIVE SUMMARY - Provider Network Performance";
      "        ";
      "        ## Key Highlights";
      "        - [3-4 most important findings]";
      "        ";
      "        ## Network Performance Overview";
      "        - [Overall health assessment]";
      "        - [Key metrics summary]";
      "        ";
      "        ## Strategic Priorities";
      "        - [Top 3 priority actions]";
      "        ";
      "        ## Financial Impact";
      "        - [Cost savings opportunities]";
      "        - [ROI projections]";
      "        ";
      "        ## Risk Assessment";
      "        - [Key risks and mitigation strategies]";
      "        ";
      "        ## Recommendations";
      "        - [Specific, actionable next steps]";
      "        ";
      "        Keep each section concise (2-3 sentences) and focus on business impact.";
      "        Use clear, non-technical language suitable for executives.";
      "        " ]%string.

Definition provider_diagnostics_prompt (context : string) : string :=
  join nl
    [ "";
      "        " ++ ReportGeneratorAgent_system_prompt;
      "        ";
      "        Generate a comprehensive Provider Diagnostics Report:";
      "        " ++ context;
      "        ";
      "        Create a detailed report with these sections:";
      "        ";
      "        # PROVIDER NETWORK DIAGNOSTICS REPORT";
      "        ";
      "        ## Executive Summary";
      "        - [Brief overview of network health]";
      "        ";
      "        ## Network Performance Analysis";
      "        - [Overall performance metrics and trends]";
      "        ";
      "        ## Provider Performance Breakdown";
      "        - [Top performers analysis]";
      "        - [Underperforming providers analysis]";
      "        - [Performance distribution insights]";
      "        ";
      "        ## Quality vs Cost Analysis";
      "        - [Quality-cost positioning analysis]";
      "        - [Value-based performance insights]";
      "        ";
      "        ## Geographic Coverage Assessment";
      "        - [Coverage strengths and gaps]";
      "        - [Market opportunity analysis]";
      "        ";
      "        ## Clinical Specialty Analysis";
      "        - [Specialty-specific performance]";
      "        - [Capacity and utilization insights]";
      "        ";
      "        ## Risk Assessment";
      "        - [Provider-specific risks]";
      "        - [Network stability concerns]";
      "        ";
      "        ## Strategic Recommendations";
      "        - [Specific improvement actions]";
      "        - [Provider management strategies]";
      "        - [Network optimization opportunities]";
      "        ";
      "        Use data-driven insights and provide specific, actionable recommendations.";
      "        Include relevant metrics and comparisons throughout.";
      "        " ]%string.

Definition _generate_executive_summary (E : env) (self : agent)
    (data audience : pyval) : M pyval :=
  context <- lift (_format_executive_context E data) ;;
  let prompt := executive_summary_prompt (fstr E audience) context in
  report <- call_llm E self prompt 1200 default_temperature ;;
  timestamp <- now_isoformat E (ns_report_generator (ns E)) ;;
  ret (PDict [("success", PBool true);
              ("report_type", PStr "executive_summary");
              ("audience", audience);
              ("report_content", PStr report);
              ("timestamp", PStr timestamp)]).

Definition _generate_provider_diagnostics_report (E : env) (self : agent)
    (data : pyval) : M pyval :=
  context <- lift (_format_provider_diagnostics_context E data) ;;
  let prompt := provider_diagnostics_prompt context in
  report <- call_llm E self prompt 1800 default_temperature ;;
  timestamp <- now_isoformat E (ns_report_generator (ns E)) ;;
  ret (PDict [("success", PBool true);
              ("report_type", PStr "provider_diagnostics");
              ("report_content", PStr report);
              ("timestamp", PStr timestamp)]).

(** The [try] block of [ReportGeneratorAgent.process_request]. *)
Definition report_dispatch (E : env) (self : agent)
    (report_type audience data focus_areas : pyval) : M pyval :=
  if py_eq_str report_type "executive_summary" then
    _generate_executive_summary E self data audience
  else if py_eq_str report_type "provider_diagnostics" then
    _generate_provider_diagnostics_report E self data
  else if py_eq_str report_type "cost_optimization" then
    missing_method ReportGeneratorAgent "_generate_cost_optimization_report"
  else if py_eq_str report_type "quality_analysis" then
    missing_method ReportGeneratorAgent "_generate_quality_analysis_report"
  else if py_eq_str report_type "network_adequacy" then
    missing_method ReportGeneratorAgent "_generate_network_adequacy_report"
  else
    missing_method ReportGeneratorAgent "_generate_comprehensive_report".

(** *** [process_request] *)

(** The [try] block of [process_request] of class [c], after the
    [request.get] calls that precede it. *)
Definition dispatch (E : env) (c : agent_class) (self : agent) (request : dict) : M pyval :=
  match c with
  | NetworkAnalyzerAgent =>
      let analysis_type := dict_get "analysis_type" request (PStr "general") in
      let provider_data := dict_get "provider_data" request (PDict []) in
      let specific_provider := dict_get "provider_id" request PNone in
      network_dispatch E self analysis_type provider_data specific_provider
  | CostOptimizerAgent =>
      let optimization_type := dict_get "optimization_type" request (PStr "general") in
      let target_savings := dict_get "target_savings" request PNone in
      let savings_type := dict_get "savings_type" request (PStr "percentage") in
      let provider_data := dict_get "provider_data" request (PDict []) in
      let constraints := dict_get "constraints" request (PDict []) in
      cost_dispatch E self optimization_type target_savings savings_type provider_data
        constraints
  | ReportGeneratorAgent =>
      let report_type := dict_get "report_type" request (PStr "network_summary") in
      let audience := dict_get "audience" request (PStr "network_manager") in
      let data := dict_get "data" request (PDict []) in
      let focus_areas := dict_get "focus_areas" request (PList []) in
      report_dispatch E self report_type audience data focus_areas
  end.

(** [process_request] of an agent of class [c]. *)
Definition process_request (E : env) (c : agent_class) (self : agent) (request : dict)
    : M pyval :=
  try_except (dispatch E c self request) (fun e => ret (failure_result c e)).

(* ----------------------------------------------------------------- *)
(** ** The router ([AgentOrchestrator]) *)

(** The three agents [__init__] creates. *)
Record orchestrator := mkOrchestrator {
  network_analyzer : agent;
  cost_optimizer : agent;
  report_generator : agent
}.

(** [self.agent_routes] *)
Definition agent_routes (self : orchestrator) : list (string * (agent_class * agent)) :=
  [("network_analysis", (NetworkAnalyzerAgent, network_analyzer self));
   ("cost_optimization", (CostOptimizerAgent, cost_optimizer self));
   ("report_generation", (ReportGeneratorAgent, report_generator self))].

(** [self.agent_routes.get(name)] *)
Fixpoint routes_get (name : string) (routes : list (string * (agent_class * agent)))
    : option (agent_class * agent) :=
  match routes with
  | [] => None
  | (k, a) :: rest => if String.eqb name k then Some a else routes_get name rest
  end.

(** The intent as the dict it is in the source. *)
Definition intent_dict (intent : Intent) : pyval :=
  PDict [("primary_agent", PStr (primary_agent intent));
         ("secondary_agents", PList (map PStr (secondary_agents intent)));
         ("complexity", PStr (complexity intent));
         ("keywords_found", PList (map PStr (keywords_found intent)))].

Definition _build_agent_request (user_query : string) (context : pyval) (intent : Intent)
    : dict :=
  let base_request :=
    [("user_query", PStr user_query);
     ("provider_data", context);
     ("intent", intent_dict intent)] in
  if String.eqb (primary_agent intent) "cost_optimization" then
    if str_in "save" (lower user_query) || str_in "reduce" (lower user_query)
    then dict_set "optimization_type" (PStr "cost_reduction") base_request
    else dict_set "optimization_type" (PStr "general") base_request
  else if String.eqb (primary_agent intent) "network_analysis" then
    if any_in ["dr."; "provider"; "doctor"] (lower user_query)
    then dict_set "analysis_type" (PStr "provider_performance") base_request
    else dict_set "analysis_type" (PStr "network_summary") base_request
  else if String.eqb (primary_agent intent) "report_generation" then
    if str_in "executive" (lower user_query) || str_in "summary" (lower user_query)
    then dict_set "report_type" (PStr "executive_summary") base_request
    else dict_set "report_type" (PStr "provider_diagnostics") base_request
  else base_request.

Definition _handle_general_query (E : env) (self : orchestrator) (user_query : string)
    (context : pyval) : M pyval :=
  let general_request :=
    [("analysis_type", PStr "general");
     ("user_query", PStr user_query);
     ("provider_data", context)] in
  process_request E NetworkAnalyzerAgent (network_analyzer self) general_request.

Definition integration_prompt (user_query analysis strategies report_content : string) : string :=
  join nl
    [ "";
      "        User asked: " ++ dq ++ user_query ++ dq;
      "        ";
      "        Agent Responses:";
      "        ";
      "        Network Analysis:";
      "        " ++ analysis;
      "        ";
      "        Cost Optimization:";
      "        " ++ strategies;
      "        ";
      "        Report Content:";
      "        " ++ report_content;
      "        ";
      "        Please integrate these agent responses into a single, coherent response that:";
      "        1. Directly answers the user's question";
      "        2. Combines insights from all agents";
      "        3. Provides a logical flow of information";
      "        4. Includes specific recommendations";
      "        5. Uses clear, professional language";
      "        ";
      "        Format as a well-structured response with clear sections.";
      "        " ]%string.

(** [agent_responses.get(name, {}).get(key, 'Not available')], as the
    f-string renders it. *)
Definition response_text (E : env) (agent_responses : dict) (name key : string)
    : result string :=
  match py_get (dict_get name agent_responses (PDict [])) key (PStr "Not available") with
  | Ok v => Ok (fstr E v)
  | Raise e => Raise e
  end.

Definition _integrate_agent_responses (E : env) (self : orchestrator)
    (user_query : string) (agent_responses : dict) : M string :=
  analysis <- lift (response_text E agent_responses "network_analysis" "analysis") ;;
  strategies <- lift (response_text E agent_responses "cost_optimization" "strategies") ;;
  report_content <-
    lift (response_text E agent_responses "report_generation" "report_content") ;;
  let prompt :=
    integration_prompt user_query analysis strategies report_content in
  call_llm E (network_analyzer self) prompt 1500 default_temperature.

Definition _handle_multi_agent_request (E : env) (self : orchestrator)
    (user_query : string) (context : pyval) (intent : Intent) : M pyval :=
  timestamp <- now_isoformat E (ns_orchestrator (ns E)) ;;
  let agent_responses : dict := [] in
  agent_responses <-
    (if str_mem "network_analysis" (secondary_agents intent) then
       let analysis_request :=
         [("analysis_type", PStr "network_summary"); ("provider_data", context)] in
       analysis_result <-
         process_request E NetworkAnalyzerAgent (network_analyzer self) analysis_request ;;
       ret (dict_set "network_analysis" analysis_result agent_responses)
     else ret agent_responses) ;;
  agent_responses <-
    (if str_mem "cost_optimization" (secondary_agents intent) then
       let cost_request :=
         [("optimization_type", PStr "general"); ("provider_data", context)] in
       cost_result <-
         process_request E CostOptimizerAgent (cost_optimizer self) cost_request ;;
       ret (dict_set "cost_optimization" cost_result agent_responses)
     else ret agent_responses) ;;
  agent_responses <-
    (if str_mem "report_generation" (secondary_agents intent) then
       let report_request :=
         [("report_type", PStr "comprehensive");
          ("data", context);
          ("focus_areas", PList [PStr "performance"; PStr "costs"; PStr "optimization"])] in
       report_result <-
         process_request E ReportGeneratorAgent (report_generator self) report_request ;;
       ret (dict_set "report_generation" report_result agent_responses)
     else ret agent_responses) ;;
  integrated_response <- _integrate_agent_responses E self user_query agent_responses ;;
  ret (PDict [("success", PBool true);
              ("multi_agent_response", PBool true);
              ("user_query", PStr user_query);
              ("agent_responses", PDict agent_responses);
              ("integrated_response", PStr integrated_response);
              ("timestamp", PStr timestamp)]).

Definition route_request (E : env) (self : orchestrator) (user_query : string)
    (context : pyval) : M pyval :=
  let intent := _classify_intent user_query in
  if String.eqb (primary_agent intent) "multi_agent" then
    _handle_multi_agent_request E self user_query context intent
  else
    match routes_get (primary_agent intent) (agent_routes self) with
    | Some (c, agent) =>
        let request := _build_agent_request user_query context intent in
        process_request E c agent request
    | None => _handle_general_query E self user_query context
    end.

(** [history[-50:]] *)
Definition last_50 {A} (history : list A) : list A :=
  skipn (length history - 50) history.

Definition add_to_conversation (E : env) (user_query : string) (response : pyval)
    : M unit :=
  timestamp <- now_isoformat E (ns_orchestrator (ns E)) ;;
  success <- lift (py_get response "success" (PBool false)) ;;
  primary <- lift (py_get response "primary_agent" (PStr "unknown")) ;;
  key_insights <- lift (py_get response "key_insights" (PList [])) ;;
  let entry :=
    PDict [("timestamp", PStr timestamp);
           ("user_query", PStr user_query);
           ("response_summary",
            PDict [("success", success);
                   ("primary_agent", primary);
                   ("key_insights", key_insights)])] in
  fun w =>
    let history := conversation_history w ++ [entry] in
    (Ok tt,
     {| llm_calls := llm_calls w;
        clock_reads := clock_reads w;
        conversation_history :=
          if (50 <? length history)%nat then last_50 history else history |}).

(* ----------------------------------------------------------------- *)
(** ** Vocabulary of the properties *)

(** Some keyword of [ks] occurs in the lower-cased query. *)
Definition occurs (ks : list string) (query : string) : Prop :=
  exists k pre post, In k ks /\ lower query = (pre ++ k ++ post)%string.

(** What [call_llm] hands back, given how its [try] block ended: the
    cleaned text, or one of three sentinels chosen by the class of the
    exception. *)
Inductive gateway_outcome : result string -> string -> Prop :=
| Answered (text : string) :
    gateway_outcome (Ok text) text
| TimedOut (e : exn) :
    is_timeout e = true ->
    gateway_outcome (Raise e) timeout_sentinel
| TransportFailed (e : exn) :
    is_timeout e = false -> is_request_exception e = true ->
    gateway_outcome (Raise e) (request_error_sentinel e)
| Unexpected (e : exn) :
    is_request_exception e = false ->
    gateway_outcome (Raise e) unexpected_sentinel.

(** The world once [call] has been sent. *)
Definition sent (call : llm_call) (w : world) : world :=
  {| llm_calls := llm_calls w ++ [call];
     clock_reads := clock_reads w;
     conversation_history := conversation_history w |}.

(** A line survives cleaning when no role marker occurs in it, whatever
    the letter case. *)
Definition keeps_line (line : string) : bool :=
  negb (any_in skip_phrases (lower line)).

(** Cleaning as the specification words it, with the stripping step of
    the code: split into lines, drop the lines holding a role marker,
    rejoin, strip, cut at 2000 characters and mark the cut. *)
Definition clean_spec (text : string) : string :=
  let kept := filter keeps_line (split LF text) in
  let joined := strip (join nl kept) in
  if (2000 <? String.length joined)%nat
  then (take 2000 joined ++ "...")%string
  else joined.

(** [c * n] *)
Fixpoint replicate (n : nat) (c : ascii) : string :=
  match n with
  | O => EmptyString
  | S n' => String c (replicate n' c)
  end.

(** The exception of a module that uses [datetime] without importing it. *)
Definition name_error_datetime : exn :=
  mkExn NameError "name 'datetime' is not defined".

(** [result["success"]] is [True]. *)
Definition is_success (r : pyval) : bool :=
  match r with
  | PDict d => match dict_get "success" d (PBool false) with
               | PBool true => true
               | _ => false
               end
  | _ => false
  end.

(** Routing the queries one after another, whatever each route returns
    or raises. *)
Fixpoint run_routes (E : env) (self : orchestrator) (queries : list string)
    (context : pyval) (w : world) : world :=
  match queries with
  | [] => w
  | q :: rest => run_routes E self rest context (snd (route_request E self q context w))
  end.

(** The entry [add_to_conversation] builds at the [n]-th clock reading. *)
Definition conversation_entry (E : env) (n : nat) (user_query : string) (response : dict)
    : pyval :=
  PDict [("timestamp", PStr (isoformat_now E n));
         ("user_query", PStr user_query);
         ("response_summary",
          PDict [("success", dict_get "success" response (PBool false));
                 ("primary_agent", dict_get "primary_agent" response (PStr "unknown"));
                 ("key_insights", dict_get "key_insights" response (PList []))])].

(** The entries of a sequence of interactions, the first of them built
    at the [n]-th clock reading. *)
Fixpoint entries_from (E : env) (n : nat) (interactions : list (string * dict))
    : list pyval :=
  match interactions with
  | [] => []
  | (q, r) :: rest => conversation_entry E n q r :: entries_from E (S n) rest
  end.

(** Recording the interactions one after another. *)
Fixpoint run_adds (E : env) (interactions : list (string * dict)) (w : world) : world :=
  match interactions with
  | [] => w
  | (q, r) :: rest => run_adds E rest (snd (add_to_conversation E q (PDict r) w))
  end.

(** A computation that leaves the conversation log as it found it. *)
Definition keeps_history {A} (m : M A) : Prop :=
  forall w, conversation_history (snd (m w)) = conversation_history w.

(** Concrete agents, transports and environments on which the
    properties are exercised. *)
Module Demo.

Definition an_agent : agent :=
  {| workspace_url := "https://your-workspace.databricks.com";
     model_endpoint := "databricks-llama-2-7b-chat";
     token := "dapi-token" |}.

Definition an_orchestrator : orchestrator :=
  {| network_analyzer := an_agent;
     cost_optimizer := an_agent;
     report_generator := an_agent |}.

(** A response body of the expected shape. *)
Definition body_with (text : string) : pyval :=
  PDict [("predictions", PList [PDict [("generated_text", PStr text)]])].

(** A transport that always answers [text]. *)
Definition answering (text : string) (_ : nat) (_ : llm_call) : result response :=
  Ok {| raise_for_status := Ok tt; json := Ok (body_with text) |}.

(** A transport that always times out. *)
Definition timing_out (_ : nat) (_ : llm_call) : result response :=
  Raise (mkExn Timeout "Read timed out. (read timeout=60)").

(** The module namespaces with [datetime] imported everywhere. *)
Definition with_datetime : namespaces :=
  {| ns_network_analyzer := "datetime" :: ns_network_analyzer repo_namespaces;
     ns_cost_optimizer := "datetime" :: ns_cost_optimizer repo_namespaces;
     ns_report_generator := "datetime" :: ns_report_generator repo_namespaces;
     ns_orchestrator := "datetime" :: ns_orchestrator repo_namespaces |}.

Definition an_env (transport : nat -> llm_call -> result response)
    (names : namespaces) (formatted : result string) : env :=
  {| post := transport;
     isoformat_now := fun n => ("2024-05-01T09:00:00." ++ replicate n "0"%char)%string;
     ns := names;
     py_str_other := fun v => ("<" ++ type_name v ++ ">")%string;
     _format_provider_context := fun _ _ => formatted;
     _format_network_context := fun _ => formatted;
     _format_cost_context := fun _ _ _ _ => formatted;
     _format_executive_context := fun _ => formatted;
     _format_provider_diagnostics_context := fun _ => formatted |}.

(** The repository as it is, with a transport that answers. *)
Definition repo_env : env :=
  an_env (answering ("Human: ignore" ++ nl ++ "Real answer line")) repo_namespaces
    (Ok "Network Overview").

(** The repository as it is, behind a transport that times out. *)
Definition timeout_env : env :=
  an_env timing_out repo_namespaces (Ok "Network Overview").


(** The code run with [datetime] bound in every module. *)
Definition patched_env : env :=
  an_env (answering "Real answer line") with_datetime (Ok "Network Overview").

Definition fresh : world :=
  {| llm_calls := []; clock_reads := 0; conversation_history := [] |}.

(** Sixty interactions, told apart by the length of their query. *)
Definition sixty_interactions : list (string * dict) :=
  map (fun n => (replicate n "q"%char, [("success", PBool true)])) (seq 1 60).

(** 2500 characters, the first of them a space. *)
Definition padded_text : string := String " " (replicate 2499 "a").

(** 2500 characters without white space at either end. *)
Definition long_text : string := replicate 2500 "a".

End Demo.

(* ----------------------------------------------------------------- *)
(** ** Vocabulary of the further properties *)

(** Between [w] and [w'] at most one call went to the endpoint. *)
Definition calls_step (w w' : world) : Prop :=
  llm_calls w' = llm_calls w \/ exists call, llm_calls w' = llm_calls w ++ [call].

(** A result as the agents build it: a dict with a boolean [success]
    and neither a [primary_agent] nor a [key_insights] entry. *)
Definition agent_result (success : bool) (v : pyval) : Prop :=
  exists d,
    v = PDict d /\
    dict_get "success" d PNone = PBool success /\
    (forall x, dict_get "primary_agent" d x = x) /\
    (forall x, dict_get "key_insights" d x = x).

(** What running a strategy from [w] may end in: at most one call sent,
    the log untouched, and a successful agent result if it returns. *)
Definition strategy_outcome (w : world) (out : result pyval * world) : Prop :=
  calls_step w (snd out) /\
  conversation_history (snd out) = conversation_history w /\
  match fst out with
  | Ok v => agent_result true v
  | Raise _ => True
  end.

(** The keyword list that decides for an agent. *)
Definition keywords_of (agent : string) : list string :=
  if String.eqb agent "cost_optimization" then cost_keywords
  else if String.eqb agent "report_generation" then report_keywords
  else if String.eqb agent "network_analysis" then analysis_keywords
  else [].

(** [k in d] for a dict *)
Definition dict_has (k : string) (d : dict) : bool :=
  existsb (fun kv => String.eqb k (fst kv)) d.

(** The exception of calling a method that no class defines. *)
Definition missing (c : agent_class) (name : string) : exn :=
  mkExn AttributeError
    ("'" ++ class_name c ++ "' object has no attribute '" ++ name ++ "'").

(** [c in s] for one character *)
Fixpoint has_char (c : ascii) (s : string) : bool :=
  match s with
  | EmptyString => false
  | String x s' => Ascii.eqb x c || has_char c s'
  end.

(** [isinstance(v, str)] *)
Definition is_str (v : pyval) : bool :=
  match v with
  | PStr _ => true
  | _ => false
  end.

(** [isinstance(v, dict)] *)
Definition is_dict (v : pyval) : bool :=
  match v with
  | PDict _ => true
  | _ => false
  end.

(** [s] is empty or starts with a character that is not white space. *)
Definition head_ok (s : string) : bool :=
  match s with
  | EmptyString => true
  | String c _ => negb (is_space c)
  end.

(* ----------------------------------------------------------------- *)
(** ** Construction of an agent ([BaseAgent.__init__]) *)

Definition preferred_models : list string :=
  ["databricks-llama-2-70b-chat"; "databricks-mpt-30b-instruct"; "databricks-dolly-v2-12b"].

Definition default_endpoint : string := "databricks-llama-2-7b-chat".

(** The inner loop of [_find_best_model_endpoint]: the first endpoint
    whose lower-cased name holds [model].  An endpoint is modelled by its
    [name]. *)
Fixpoint first_endpoint_for (model : string) (endpoints : list string) : option string :=
  match endpoints with
  | [] => None
  | name :: rest =>
      if str_in model (lower name) then Some name else first_endpoint_for model rest
  end.

(** The outer loop: the preferred models in their order. *)
Fixpoint first_preferred (models endpoints : list string) : option string :=
  match models with
  | [] => None
  | model :: rest =>
      match first_endpoint_for model endpoints with
      | Some name => Some name
      | None => first_preferred rest endpoints
      end
  end.

(** [_find_best_model_endpoint], given what
    [workspace_client.serving_endpoints.list()] returns or raises. *)
Definition _find_best_model_endpoint (listing : result (list string)) : string :=
  match listing with
  | Ok endpoints =>
      match first_preferred preferred_models endpoints with
      | Some name => name
      | None =>
          match endpoints with
          | fallback :: _ => fallback
          | [] => default_endpoint
          end
      end
  | Raise _ => default_endpoint
  end.

(** The global names bound in [base_agent.py]. *)
Definition base_agent_globals : list string :=
  ["json"; "logging"; "ABC"; "abstractmethod"; "Dict"; "List"; "Any"; "Optional";
   "datetime"; "requests"; "WorkspaceClient"; "logger"; "BaseAgent"].

(** What the code reaches through [dbutils]: the secret of a scope and a
    key, and the API token of the notebook context. *)
Record dbutils := mkDbutils {
  secrets_get : string -> string -> result string;
  notebook_api_token : result string
}.

(** The name [dbutils] evaluated in a module whose global names are
    [globals]. *)
Definition dbutils_name (globals : list string) (d : dbutils) : result dbutils :=
  if str_mem "dbutils" globals then Ok d
  else Raise (mkExn NameError "name 'dbutils' is not defined").

Definition placeholder_url : string := "https://your-workspace.databricks.com".

Definition _get_workspace_url (globals : list string) (d : dbutils) : string :=
  match dbutils_name globals d with
  | Ok db =>
      match secrets_get db "network-app" "workspace-url" with
      | Ok url => url
      | Raise _ => placeholder_url
      end
  | Raise _ => placeholder_url
  end.

Definition _get_databricks_token (globals : list string) (d : dbutils) : result string :=
  let from_secret :=
    match dbutils_name globals d with
    | Ok db => secrets_get db "network-app" "databricks-token"
    | Raise e => Raise e
    end in
  match from_secret with
  | Ok t => Ok t
  | Raise _ =>
      match dbutils_name globals d with
      | Ok db => notebook_api_token db
      | Raise e => Raise e
      end
  end.

(** [BaseAgent.__init__]: [given] is the [model_endpoint] argument, used
    unless it is [None] or empty. *)
Definition BaseAgent_init (globals : list string) (d : dbutils)
    (listing : result (list string)) (given : option string) : result agent :=
  let endpoint :=
    match given with
    | Some (String c s) => String c s
    | _ => _find_best_model_endpoint listing
    end in
  let url := _get_workspace_url globals d in
  match _get_databricks_token globals d with
  | Ok t => Ok {| workspace_url := url; model_endpoint := endpoint; token := t |}
  | Raise e => Raise e
  end.

(** [AgentOrchestrator.__init__]: the three agents, each built without a
    [model_endpoint]; [listing n] is what the [n]-th listing returns. *)
Definition AgentOrchestrator_init (globals : list string) (d : dbutils)
    (listing : nat -> result (list string)) : result orchestrator :=
  match BaseAgent_init globals d (listing 0) None with
  | Raise e => Raise e
  | Ok analyzer =>
      match BaseAgent_init globals d (listing 1) None with
      | Raise e => Raise e
      | Ok optimizer =>
          match BaseAgent_init globals d (listing 2) None with
          | Raise e => Raise e
          | Ok generator =>
              Ok {| network_analyzer := analyzer;
                    cost_optimizer := optimizer;
                    report_generator := generator |}
          end
      end
  end.

(* ----------------------------------------------------------------- *)
(** ** The summary of the conversation ([get_conversation_summary]) *)





(* ----------------------------------------------------------------- *)
(** ** The provider context ([NetworkAnalyzerAgent._format_provider_context]) *)

(** [str(v)], given [str] on the values that are not strings. *)
Definition py_str (str_other : pyval -> string) (v : pyval) : string :=
  match v with
  | PStr s => s
  | _ => str_other v
  end.

(** [bool(v)] *)
Definition py_truthy (v : pyval) : bool :=
  match v with
  | PNone => false
  | PBool b => b
  | PInt z => negb (Z.eqb z 0)
  | PFloat f => negb (PrimFloat.eqb f 0%float)
  | PStr s => negb (String.eqb s EmptyString)
  | PList l => match l with [] => false | _ :: _ => true end
  | PDict d => match d with [] => false | _ :: _ => true end
  end.

(** [k in v] for a string [k] *)
Definition py_contains (k : string) (v : pyval) : result bool :=
  match v with
  | PDict d => Ok (dict_has k d)
  | PList l => Ok (existsb (fun x => py_eq_str x k) l)
  | PStr s => Ok (str_in k s)
  | _ => Raise (mkExn TypeError
                  ("argument of type '" ++ type_name v ++ "' is not iterable"))
  end.

(** [v[k]] for a string [k] *)
Definition py_getitem (k : string) (v : pyval) : result pyval :=
  match v with
  | PDict d =>
      if dict_has k d then Ok (dict_get k d PNone)
      else Raise (mkExn KeyError ("'" ++ k ++ "'"))
  | PList _ =>
      Raise (mkExn TypeError "list indices must be integers or slices, not str")
  | PStr _ => Raise (mkExn TypeError "string indices must be integers, not 'str'")
  | _ => Raise (mkExn TypeError ("'" ++ type_name v ++ "' object is not subscriptable"))
  end.

(** The values [for p in v] goes through. *)
Definition py_iter (v : pyval) : result (list pyval) :=
  match v with
  | PList l => Ok l
  | PDict d => Ok (map (fun kv => PStr (fst kv)) d)
  | PStr s => Ok (map (fun c => PStr (String c EmptyString)) (list_ascii_of_string s))
  | _ => Raise (mkExn TypeError ("'" ++ type_name v ++ "' object is not iterable"))
  end.

(** [next((p for p in providers if str(p.get("id")) == str(provider_id)), None)]:
    the first provider whose id prints like the requested one; a provider
    that comes before it and is not a dict raises. *)
Fixpoint find_provider (str_other : pyval -> string) (providers : list pyval)
    (provider_id : pyval) : result (option dict) :=
  match providers with
  | [] => Ok None
  | PDict p :: rest =>
      if String.eqb (py_str str_other (dict_get "id" p PNone)) (py_str str_other provider_id)
      then Ok (Some p)
      else find_provider str_other rest provider_id
  | p :: _ => no_attribute (type_name p) "get"
  end.

Definition provider_details (name organization score efficiency_gain quality_rating avg_cost
    patient_volume clinical_groups network_status network_score network_cost
    network_quality : string)
    : string :=
  join nl
    [ "";
      "                Provider Details:";
      "                - Name: " ++ name;
      "                - Organization: " ++ organization;
      "                - Score: " ++ score ++ "/100";
      "                - Efficiency Gain: " ++ efficiency_gain ++ "%";
      "                - Quality Rating: " ++ quality_rating ++ "/5";
      "                - Average Cost: $" ++ avg_cost;
      "                - Patient Volume: " ++ patient_volume;
      "                - Clinical Groups: " ++ clinical_groups;
      "                - Network Status: " ++ network_status;
      "                ";
      "                Network Averages:";
      "                - Average Score: " ++ network_score;
      "                - Average Cost: $" ++ network_cost;
      "                - Average Quality: " ++ network_quality;
      "                " ]%string.

Definition provider_unavailable : string := "Provider data not available for analysis.".

(** [data.get('network_averages', {}).get(key, 'N/A')], as the f-string
    renders it. *)
Definition network_average (str_other : pyval -> string) (data : pyval) (key : string)
    : result string :=
  match py_get data "network_averages" (PDict []) with
  | Raise e => Raise e
  | Ok averages =>
      match py_get averages key (PStr "N/A") with
      | Raise e => Raise e
      | Ok v => Ok (py_str str_other v)
      end
  end.

(** [_format_provider_context], written out; [str_other] is [str] on the
    values that are not strings. *)
Definition NetworkAnalyzerAgent_format_provider_context (str_other : pyval -> string)
    (data provider_id : pyval) : result string :=
  if negb (py_truthy provider_id) then Ok provider_unavailable
  else
    match py_contains "providers" data with
    | Raise e => Raise e
    | Ok false => Ok provider_unavailable
    | Ok true =>
        match py_getitem "providers" data with
        | Raise e => Raise e
        | Ok listed =>
            match py_iter listed with
            | Raise e => Raise e
            | Ok providers =>
                match find_provider str_other providers provider_id with
                | Raise e => Raise e
                | Ok None => Ok provider_unavailable
                | Ok (Some []) => Ok provider_unavailable
                | Ok (Some provider) =>
                    let field k := py_str str_other (dict_get k provider PNone) in
                    let network_status :=
                      if py_truthy (dict_get "in_network" provider PNone)
                      then "In Network" else "Out of Network" in
                    match network_average str_other data "avg_score" with
                    | Raise e => Raise e
                    | Ok network_score =>
                        match network_average str_other data "avg_cost" with
                        | Raise e => Raise e
                        | Ok network_cost =>
                            match network_average str_other data "avg_quality" with
                            | Raise e => Raise e
                            | Ok network_quality =>
                                Ok (provider_details (field "name") (field "organization")
                                      (field "score") (field "efficiency_gain")
                                      (field "quality_rating") (field "avg_cost")
                                      (field "patient_volume") (field "clinical_groups")
                                      network_status network_score network_cost
                                      network_quality)
                            end
                        end
                    end
                end
            end
        end
    end.


(** Further concrete values on which the properties are exercised. *)
Module Samples.


(** Two providers of a network. *)
Definition dr_adams : dict :=
  [("id", PStr "P-17"); ("name", PStr "Dr. Adams"); ("organization", PStr "Northside");
   ("in_network", PBool true)].

Definition dr_baker : dict :=
  [("id", PStr "P-42"); ("name", PStr "Dr. Baker"); ("organization", PStr "Lakeview");
   ("in_network", PBool false)].

Definition a_network : dict := [("providers", PList [PDict dr_adams; PDict dr_baker])].

End Samples.

(* ----------------------------------------------------------------- *)
(** ** Exceptions without a text *)






(* ================================================================= *)
(** * Part II. Properties *)
(* ================================================================= *)

(* ----------------------------------------------------------------- *)
(** ** Strings *)

Lemma starts_with_iff k s :
  starts_with k s = true <-> exists post, s = (k ++ post)%string.
Proof.
  revert s; induction k as [|a k IH]; intros s; simpl.
  - split; [intros _; now exists s | reflexivity].
  - destruct s as [|b s].
    + split; [discriminate | intros [post H]; discriminate].
    + rewrite andb_true_iff, Ascii.eqb_eq, IH. split.
      * intros [-> [post ->]]. now exists post.
      * intros [post H]. injection H as -> ->. split; [reflexivity | now exists post].
Qed.

(** [k in s] holds exactly when [s] is [pre ++ k ++ post]. *)
Lemma str_in_iff k s :
  str_in k s = true <-> exists pre post, s = (pre ++ k ++ post)%string.
Proof.
  induction s as [|c s IH]; simpl; rewrite orb_true_iff.
  - split.
    + intros [H | H]; [|discriminate].
      apply starts_with_iff in H as [post H]. now exists EmptyString, post.
    + intros [pre [post H]]. left. destruct pre; simpl in H.
      * apply starts_with_iff. now exists post.
      * discriminate.
  - rewrite IH, starts_with_iff. split.
    + intros [[post H] | [pre [post H]]].
      * now exists EmptyString, post.
      * exists (String c pre), post. simpl. now rewrite H.
    + intros [pre [post H]]. destruct pre as [|a pre]; simpl in H.
      * left. now exists post.
      * right. injection H as _ H. now exists pre, post.
Qed.

Lemma any_in_iff ks s :
  any_in ks s = true <-> exists k, In k ks /\ str_in k s = true.
Proof. unfold any_in. apply existsb_exists. Qed.

Lemma chr_lower_idem c : chr_lower (chr_lower c) = chr_lower c.
Proof. destruct c as [[] [] [] [] [] [] [] []]; reflexivity. Qed.

Lemma lower_idem s : lower (lower s) = lower s.
Proof. induction s as [|c s IH]; simpl; [reflexivity | now rewrite chr_lower_idem, IH]. Qed.

Lemma str_app_assoc (a b c : string) : ((a ++ b) ++ c = a ++ (b ++ c))%string.
Proof. induction a as [|x a IH]; simpl; [reflexivity | now rewrite IH]. Qed.

Lemma str_app_nil_r (a : string) : (a ++ "" = a)%string.
Proof. induction a as [|x a IH]; simpl; [reflexivity | now rewrite IH]. Qed.

Lemma lower_app a b : lower (a ++ b) = (lower a ++ lower b)%string.
Proof. induction a as [|c a IH]; simpl; [reflexivity | now rewrite IH]. Qed.

(* ----------------------------------------------------------------- *)
(** ** The classifier *)

Lemma occurs_iff ks q : occurs ks q <-> any_in ks (lower q) = true.
Proof.
  unfold occurs. rewrite any_in_iff. split.
  - intros (k & pre & post & Hk & H). exists k. split; [exact Hk|].
    apply str_in_iff. now exists pre, post.
  - intros (k & Hk & H). apply str_in_iff in H as (pre & post & H).
    now exists k, pre, post.
Qed.

Lemma not_occurs_iff ks q : ~ occurs ks q <-> any_in ks (lower q) = false.
Proof. rewrite occurs_iff. apply not_true_iff_false. Qed.

(** Without a complexity keyword, a cost keyword decides. *)
Lemma classify_cost q :
  ~ occurs complex_keywords q -> occurs cost_keywords q ->
  primary_agent (_classify_intent q) = "cost_optimization".
Proof.
  rewrite not_occurs_iff, occurs_iff. intros H1 H2.
  unfold _classify_intent. now rewrite H1, H2.
Qed.

(** C1. Classification follows a fixed precedence, first match winning:
    a complexity keyword in the lower-cased query gives the multi-agent
    intent with all three secondary agents, whatever else the query holds;
    otherwise a cost keyword gives the cost intent; otherwise a report
    keyword gives the report intent; otherwise an analysis keyword gives
    the performance intent; and a query with no keyword at all gets the
    default performance intent. *)
Theorem classify_precedence (q : string) :
  (occurs complex_keywords q ->
     primary_agent (_classify_intent q) = "multi_agent" /\
     secondary_agents (_classify_intent q)
       = ["network_analysis"; "cost_optimization"; "report_generation"]) /\
  (~ occurs complex_keywords q -> occurs cost_keywords q ->
     primary_agent (_classify_intent q) = "cost_optimization") /\
  (~ occurs complex_keywords q -> ~ occurs cost_keywords q ->
   occurs report_keywords q ->
     primary_agent (_classify_intent q) = "report_generation") /\
  (~ occurs complex_keywords q -> ~ occurs cost_keywords q ->
   ~ occurs report_keywords q -> occurs analysis_keywords q ->
     primary_agent (_classify_intent q) = "network_analysis") /\
  (~ occurs complex_keywords q -> ~ occurs cost_keywords q ->
   ~ occurs report_keywords q -> ~ occurs analysis_keywords q ->
     _classify_intent q = default_intent /\
     primary_agent (_classify_intent q) = "network_analysis").
Proof.
  rewrite !not_occurs_iff, !occurs_iff. unfold _classify_intent.
  repeat split; intros; 
    repeat match goal with H : any_in _ _ = _ |- _ => rewrite H; clear H end;
    reflexivity.
Qed.

Lemma classify_precedence_witness :
  (primary_agent (_classify_intent "A COMPREHENSIVE cost report") = "multi_agent" /\
   secondary_agents (_classify_intent "A COMPREHENSIVE cost report")
     = ["network_analysis"; "cost_optimization"; "report_generation"]) /\
  primary_agent (_classify_intent "Reduce the budget report") = "cost_optimization" /\
  primary_agent (_classify_intent "Download the PDF of scores") = "report_generation" /\
  primary_agent (_classify_intent "Benchmark Dr. Smith") = "network_analysis" /\
  (_classify_intent "hello there" = default_intent /\
   primary_agent (_classify_intent "hello there") = "network_analysis").
Proof.
  split; [|split; [|split; [|split]]].
  - apply (proj1 (classify_precedence "A COMPREHENSIVE cost report")).
    exists "comprehensive", "a ", " cost report". split; [simpl; auto | reflexivity].
  - apply (proj1 (proj2 (classify_precedence "Reduce the budget report"))).
    + apply not_occurs_iff. reflexivity.
    + exists "budget", "reduce the ", " report". split; [simpl; auto 10 | reflexivity].
  - apply (proj1 (proj2 (proj2 (classify_precedence "Download the PDF of scores")))).
    + apply not_occurs_iff. reflexivity.
    + apply not_occurs_iff. reflexivity.
    + exists "pdf", "download the ", " of scores". split; [simpl; auto 10 | reflexivity].
  - apply (proj1 (proj2 (proj2 (proj2 (classify_precedence "Benchmark Dr. Smith"))))).
    + apply not_occurs_iff. reflexivity.
    + apply not_occurs_iff. reflexivity.
    + apply not_occurs_iff. reflexivity.
    + exists "benchmark", "", " dr. smith". split; [simpl; auto 10 | reflexivity].
  - apply (proj2 (proj2 (proj2 (proj2 (classify_precedence "hello there")))));
      apply not_occurs_iff; reflexivity.
Defined.

(** C9, as stated, fails on its example: [forecast] is spelled with
    [cast], so no cost keyword (and no other keyword) occurs in
    [forecast the next quarter], which gets the default intent. *)
Lemma forecast_is_not_a_cost_query :
  str_in "cost" "forecast" = false /\
  primary_agent (_classify_intent "forecast the next quarter") = "network_analysis" /\
  primary_agent (_classify_intent "forecast the next quarter") <> "cost_optimization".
Proof. split; [reflexivity | split; [reflexivity | discriminate]]. Qed.

(** C9, amended. Keywords are matched as substrings of the lower-cased
    query, not as words: whenever any stretch [word] of the query holds a
    cost keyword inside it and no complexity keyword occurs in the query,
    the primary agent is the cost agent; so [rent a costume] is a cost query, through the [cost] inside
    [costume], while [forecast the next quarter] holds no keyword and gets
    the default intent. *)
Theorem cost_keyword_inside_word :
  (forall pre word post k,
     In k cost_keywords ->
     str_in k (lower word) = true ->
     ~ occurs complex_keywords (pre ++ word ++ post) ->
     primary_agent (_classify_intent (pre ++ word ++ post)) = "cost_optimization") /\
  primary_agent (_classify_intent "rent a costume") = "cost_optimization" /\
  _classify_intent "forecast the next quarter" = default_intent.
Proof.
  split; [|split; reflexivity].
  intros pre word post k Hk Hin Hc.
  apply classify_cost; [exact Hc|].
  apply str_in_iff in Hin as (a & b & Hw).
  exists k, (lower pre ++ a)%string, (b ++ lower post)%string. split; [exact Hk|].
  rewrite !lower_app, Hw.
  rewrite !str_app_assoc. reflexivity.
Qed.

Lemma cost_keyword_inside_word_witness :
  primary_agent (_classify_intent ("rent a " ++ "Costume" ++ " for the party"))
    = "cost_optimization".
Proof.
  apply (proj1 cost_keyword_inside_word "rent a " "Costume" " for the party" "cost").
  - simpl; auto.
  - reflexivity.
  - apply not_occurs_iff. reflexivity.
Defined.

(** C10. The intent is a function of the query alone and does not depend
    on its letter case: a query and its lower-cased form get the same
    intent (primary agent, secondary agents, complexity and keywords
    found), as do any two queries that agree once lower-cased, and equal
    queries get equal intents. *)
Theorem classify_case_invariant (q : string) :
  _classify_intent (lower q) = _classify_intent q /\
  (forall q', lower q' = lower q -> _classify_intent q' = _classify_intent q) /\
  (forall q', q' = q -> _classify_intent q' = _classify_intent q).
Proof.
  split; [|split].
  - unfold _classify_intent. now rewrite lower_idem.
  - intros q' H. unfold _classify_intent. now rewrite H.
  - intros q' ->. reflexivity.
Qed.

Lemma classify_case_invariant_witness :
  _classify_intent "ANALYZE Quality" = _classify_intent "analyze quality".
Proof.
  apply (proj1 (proj2 (classify_case_invariant "analyze quality")) "ANALYZE Quality").
  reflexivity.
Defined.

(* ----------------------------------------------------------------- *)
(** ** The gateway *)

Lemma split_nonempty sep s : split sep s <> [].
Proof.
  destruct s as [|c s]; simpl; [discriminate|].
  destruct (Ascii.eqb c sep); [discriminate|].
  destruct (split sep s); discriminate.
Qed.

Lemma join_cons sep p q rest :
  join sep (p :: q :: rest) = (p ++ sep ++ join sep (q :: rest))%string.
Proof. reflexivity. Qed.

(** Splitting at line feeds and joining with line feeds gives the text
    back. *)
Lemma join_split s : join nl (split LF s) = s.
Proof.
  induction s as [|c s IH]; simpl; [reflexivity|].
  destruct (Ascii.eqb_spec c LF) as [->|Hc].
  - pose proof (split_nonempty LF s) as Hne.
    destruct (split LF s) as [|h t]; [contradiction|].
    rewrite join_cons, IH. reflexivity.
  - pose proof (split_nonempty LF s) as Hne.
    destruct (split LF s) as [|h t]; [contradiction|].
    destruct t as [|h' t].
    + simpl in *. now rewrite IH.
    + rewrite <- IH. rewrite !join_cons. reflexivity.
Qed.

Lemma split_head sep s :
  forall h t, split sep s = h :: t -> exists post, s = (h ++ post)%string.
Proof.
  induction s as [|c s IH]; simpl; intros h t H.
  - injection H as <- _. now exists EmptyString.
  - destruct (Ascii.eqb c sep).
    + injection H as <- _. now exists (String c s).
    + destruct (split sep s) as [|h' t'] eqn:Hs.
      * destruct (split_nonempty sep s Hs).
      * injection H as <- _. destruct (IH h' t' eq_refl) as [post ->].
        now exists post.
Qed.

(** Every line of a text is a stretch of that text. *)
Lemma split_in sep s line :
  In line (split sep s) -> exists pre post, s = (pre ++ line ++ post)%string.
Proof.
  induction s as [|c s IH]; simpl.
  - intros [<- | []]. now exists EmptyString, EmptyString.
  - destruct (Ascii.eqb c sep).
    + intros [<- | H].
      * now exists EmptyString, (String c s).
      * destruct (IH H) as (pre & post & ->). now exists (String c pre), post.
    + destruct (split sep s) as [|h t] eqn:Hs.
      * intros [<- | []]. destruct (split_nonempty sep s Hs).
      * intros [<- | H].
        -- destruct (split_head sep s h t Hs) as [post ->].
           now exists EmptyString, post.
        -- destruct (IH (or_intror H)) as (pre & post & ->).
           now exists (String c pre), post.
Qed.

(** A text in which no marker occurs has no line in which one occurs. *)
Lemma unmarked_lines text line :
  any_in skip_phrases (lower text) = false ->
  In line (split LF text) -> keeps_line line = true.
Proof.
  intros Hno Hin. unfold keeps_line.
  destruct (any_in skip_phrases (lower line)) eqn:Hl; [|reflexivity].
  apply any_in_iff in Hl as (k & Hk & Hs).
  apply str_in_iff in Hs as (a & b & Hs).
  destruct (split_in _ _ _ Hin) as (pre & post & ->).
  assert (any_in skip_phrases (lower (pre ++ line ++ post)) = true) as Ht.
  { apply any_in_iff. exists k. split; [exact Hk|].
    apply str_in_iff. exists (lower pre ++ a)%string, (b ++ lower post)%string.
    rewrite !lower_app, Hs, !str_app_assoc. reflexivity. }
  congruence.
Qed.

Lemma filter_all {A} (f : A -> bool) l :
  (forall x, In x l -> f x = true) -> filter f l = l.
Proof.
  induction l as [|x l IH]; simpl; intros H; [reflexivity|].
  rewrite (H x (or_introl eq_refl)), IH; [reflexivity|].
  intros y Hy. apply H. now right.
Qed.

(** The accumulating loop keeps exactly the lines [filter] keeps. *)
Lemma clean_loop_filter lines : clean_loop lines = filter keeps_line lines.
Proof.
  unfold clean_loop.
  enough (forall acc,
            fold_left (fun cleaned line =>
                         if negb (any_in skip_phrases (lower line))
                         then cleaned ++ [line] else cleaned) lines acc
            = acc ++ filter keeps_line lines) as H by apply (H []).
  induction lines as [|l lines IH]; intros acc.
  - simpl. now rewrite app_nil_r.
  - cbn [fold_left filter]. rewrite IH.
    change (keeps_line l) with (negb (any_in skip_phrases (lower l))).
    destruct (negb (any_in skip_phrases (lower l))); [|reflexivity].
    now rewrite <- app_assoc.
Qed.

Lemma clean_text_is_clean_spec text : clean_text text = clean_spec text.
Proof. unfold clean_text, clean_spec. now rewrite clean_loop_filter. Qed.

(** C6, as stated, leaves out the stripping step: a 2500-character text
    without role markers that starts with a space does not come back as
    its first 2000 characters and the ellipsis, but as the 2000
    characters after the space and the ellipsis. *)
Lemma clean_text_strips_before_cutting :
  String.length Demo.padded_text = 2500 /\
  any_in skip_phrases (lower Demo.padded_text) = false /\
  clean_text Demo.padded_text = (replicate 2000 "a" ++ "...")%string /\
  clean_text Demo.padded_text <> (take 2000 Demo.padded_text ++ "...")%string.
Proof.
  split; [vm_compute; reflexivity|]. split; [vm_compute; reflexivity|].
  split; [vm_compute; reflexivity|].
  intros H. apply (f_equal (String.get 0)) in H. vm_compute in H. discriminate.
Qed.

(** C6, amended. Cleaning splits the generated text into lines, drops
    every line in which one of the five role markers occurs (whatever the
    letter case), rejoins the remaining lines, strips white space from
    both ends, and cuts the result at 2000 characters, appending the
    ellipsis when it cuts; a text of 2500 characters that holds no role
    marker and neither starts nor ends with white space comes back as its
    first 2000 characters followed by the ellipsis. *)
Theorem clean_text_spec :
  (forall text, clean_text text = clean_spec text) /\
  (forall text,
     String.length text = 2500 ->
     any_in skip_phrases (lower text) = false ->
     strip text = text ->
     clean_text text = (take 2000 text ++ "...")%string).
Proof.
  split; [exact clean_text_is_clean_spec|].
  intros text Hlen Hno Hstrip.
  rewrite clean_text_is_clean_spec. unfold clean_spec.
  rewrite filter_all by (intros line; apply unmarked_lines; exact Hno).
  rewrite join_split, Hstrip, Hlen.
  replace (2000 <? 2500)%nat with true by (vm_compute; reflexivity).
  reflexivity.
Qed.

Lemma clean_text_spec_witness :
  clean_text Demo.long_text = (take 2000 Demo.long_text ++ "...")%string.
Proof.
  apply (proj2 clean_text_spec Demo.long_text); vm_compute; reflexivity.
Defined.

(** However its [try] block ends, the attempt has sent exactly one call. *)
Lemma llm_attempt_world E call w : snd (llm_attempt E call w) = sent call w.
Proof.
  unfold llm_attempt, bind, requests_post, lift.
  repeat match goal with
         | |- context [match ?x with _ => _ end] => destruct x
         end; reflexivity.
Qed.


Lemma call_llm_run E self prompt max_tokens temperature w :
  exists s,
    call_llm E self prompt max_tokens temperature w
      = (Ok s, sent (build_call self prompt max_tokens temperature) w) /\
    gateway_outcome
      (fst (llm_attempt E (build_call self prompt max_tokens temperature) w)) s.
Proof.
  unfold call_llm, try_except.
  pose proof (llm_attempt_world E (build_call self prompt max_tokens temperature) w) as Hw.
  destruct (llm_attempt E (build_call self prompt max_tokens temperature) w)
    as [[text|e] w']; simpl in *; subst w'.
  - exists text. split; [reflexivity | constructor].
  - unfold llm_handler.
    destruct (is_timeout e) eqn:Ht.
    + exists timeout_sentinel. split; [reflexivity | now constructor].
    + destruct (is_request_exception e) eqn:Hr.
      * exists (request_error_sentinel e). split; [reflexivity | now constructor].
      * exists unexpected_sentinel. split; [reflexivity | now constructor].
Qed.



(** The mocked round trip of the specification: the role-marker line is
    dropped and the rest comes back. *)
Example call_llm_round_trip :
  fst (call_llm Demo.repo_env Demo.an_agent "Summarise the network" 1000
         default_temperature Demo.fresh)
    = Ok "Real answer line".
Proof. vm_compute. reflexivity. Qed.

(* ----------------------------------------------------------------- *)
(** ** The agents *)







Lemma now_isoformat_unbound E globals w :
  str_mem "datetime" globals = false ->
  now_isoformat E globals w = (Raise name_error_datetime, w).
Proof. intros H. unfold now_isoformat. now rewrite H. Qed.

(** A strategy that formats, calls the gateway and then reads the clock
    in a module without [datetime]: the text of the gateway is lost. *)
Lemma strategy_loses_text E self (formatted : result string) prompt_of max_tokens
    globals (wrap : string -> string -> pyval) w :
  str_mem "datetime" globals = false ->
  (context <- lift formatted ;;
   text <- call_llm E self (prompt_of context) max_tokens default_temperature ;;
   timestamp <- now_isoformat E globals ;;
   ret (wrap text timestamp)) w
  = match formatted with
    | Ok context =>
        (Raise name_error_datetime,
         sent (build_call self (prompt_of context) max_tokens default_temperature) w)
    | Raise e => (Raise e, w)
    end.
Proof.
  intros Hg. unfold bind at 1, lift. destruct formatted as [context|e]; [|reflexivity].
  unfold bind at 1.
  destruct (call_llm_run E self (prompt_of context) max_tokens default_temperature w)
    as (s & -> & _).
  unfold bind. now rewrite now_isoformat_unbound.
Qed.

Lemma repo_has_no_datetime :
  str_mem "datetime" (ns_network_analyzer repo_namespaces) = false /\
  str_mem "datetime" (ns_cost_optimizer repo_namespaces) = false /\
  str_mem "datetime" (ns_report_generator repo_namespaces) = false /\
  str_mem "datetime" (ns_orchestrator repo_namespaces) = false.
Proof. repeat split. Qed.

Lemma network_summary_run E self data w :
  ns E = repo_namespaces ->
  _analyze_network_summary E self data w
  = match _format_network_context E data with
    | Ok context =>
        (Raise name_error_datetime,
         sent (build_call self (network_summary_prompt context) 1000
                 default_temperature) w)
    | Raise e => (Raise e, w)
    end.
Proof.
  intros Hns. unfold _analyze_network_summary. rewrite Hns.
  apply (strategy_loses_text E self _ network_summary_prompt 1000 _
           (fun analysis timestamp =>
              PDict [("success", PBool true);
                     ("analysis_type", PStr "network_summary");
                     ("analysis", PStr analysis);
                     ("timestamp", PStr timestamp)])).
  reflexivity.
Qed.

Lemma provider_performance_run E self data provider_id w :
  ns E = repo_namespaces ->
  _analyze_provider_performance E self data provider_id w
  = match _format_provider_context E data provider_id with
    | Ok context =>
        (Raise name_error_datetime,
         sent (build_call self (provider_performance_prompt context) 1000
                 default_temperature) w)
    | Raise e => (Raise e, w)
    end.
Proof.
  intros Hns. unfold _analyze_provider_performance. rewrite Hns.
  apply (strategy_loses_text E self _ provider_performance_prompt 1000 _
           (fun analysis timestamp =>
              PDict [("success", PBool true);
                     ("analysis_type", PStr "provider_performance");
                     ("provider_id", provider_id);
                     ("analysis", PStr analysis);
                     ("timestamp", PStr timestamp)])).
  reflexivity.
Qed.

Lemma cost_reduction_run E self data target savings_type constraints w :
  ns E = repo_namespaces ->
  _generate_cost_reduction_strategies E self data target savings_type constraints w
  = match _format_cost_context E data target savings_type constraints with
    | Ok context =>
        (Raise name_error_datetime,
         sent (build_call self (cost_reduction_prompt context) 1500
                 default_temperature) w)
    | Raise e => (Raise e, w)
    end.
Proof.
  intros Hns. unfold _generate_cost_reduction_strategies. rewrite Hns.
  apply (strategy_loses_text E self _ cost_reduction_prompt 1500 _
           (fun strategies timestamp =>
              PDict [("success", PBool true);
                     ("optimization_type", PStr "cost_reduction");
                     ("target_savings", target);
                     ("savings_type", savings_type);
                     ("strategies", PStr strategies);
                     ("timestamp", PStr timestamp)])).
  reflexivity.
Qed.

Lemma executive_summary_run E self data audience w :
  ns E = repo_namespaces ->
  _generate_executive_summary E self data audience w
  = match _format_executive_context E data with
    | Ok context =>
        (Raise name_error_datetime,
         sent (build_call self (executive_summary_prompt (fstr E audience) context) 1200
                 default_temperature) w)
    | Raise e => (Raise e, w)
    end.
Proof.
  intros Hns. unfold _generate_executive_summary. rewrite Hns.
  apply (strategy_loses_text E self _ (executive_summary_prompt (fstr E audience)) 1200 _
           (fun report timestamp =>
              PDict [("success", PBool true);
                     ("report_type", PStr "executive_summary");
                     ("audience", audience);
                     ("report_content", PStr report);
                     ("timestamp", PStr timestamp)])).
  reflexivity.
Qed.

Lemma provider_diagnostics_run E self data w :
  ns E = repo_namespaces ->
  _generate_provider_diagnostics_report E self data w
  = match _format_provider_diagnostics_context E data with
    | Ok context =>
        (Raise name_error_datetime,
         sent (build_call self (provider_diagnostics_prompt context) 1800
                 default_temperature) w)
    | Raise e => (Raise e, w)
    end.
Proof.
  intros Hns. unfold _generate_provider_diagnostics_report. rewrite Hns.
  apply (strategy_loses_text E self _ provider_diagnostics_prompt 1800 _
           (fun report timestamp =>
              PDict [("success", PBool true);
                     ("report_type", PStr "provider_diagnostics");
                     ("report_content", PStr report);
                     ("timestamp", PStr timestamp)])).
  reflexivity.
Qed.

(** With the modules as they are, the body of [process_request] always
    ends in an exception. *)
Lemma dispatch_always_raises E c self request w :
  ns E = repo_namespaces ->
  exists e w', dispatch E c self request w = (Raise e, w').
Proof.
  intros Hns. destruct c; unfold dispatch.
  - unfold network_dispatch.
    repeat match goal with
           | |- context [if ?b then _ else _] => destruct b
           end;
      try (unfold missing_method, lift, no_attribute; eauto; fail).
    + rewrite provider_performance_run by exact Hns.
      destruct (_format_provider_context _ _ _); eauto.
    + rewrite network_summary_run by exact Hns.
      destruct (_format_network_context _ _); eauto.
  - unfold cost_dispatch.
    repeat match goal with
           | |- context [if ?b then _ else _] => destruct b
           end;
      try (unfold missing_method, lift, no_attribute; eauto; fail).
    rewrite cost_reduction_run by exact Hns.
    destruct (_format_cost_context _ _ _ _ _); eauto.
  - unfold report_dispatch.
    repeat match goal with
           | |- context [if ?b then _ else _] => destruct b
           end;
      try (unfold missing_method, lift, no_attribute; eauto; fail).
    + rewrite executive_summary_run by exact Hns.
      destruct (_format_executive_context _ _); eauto.
    + rewrite provider_diagnostics_run by exact Hns.
      destruct (_format_provider_diagnostics_context _ _); eauto.
Qed.

(** The failure isolation of the specification: when the formatting
    step of the cost agent raises, [process_request] reports that very
    exception and has sent nothing to the gateway. *)
Lemma cost_formatting_failure_is_reported E self request w e :
  dict_get "optimization_type" request (PStr "general") = PStr "cost_reduction" ->
  _format_cost_context E
    (dict_get "provider_data" request (PDict []))
    (dict_get "target_savings" request PNone)
    (dict_get "savings_type" request (PStr "percentage"))
    (dict_get "constraints" request (PDict [])) = Raise e ->
  process_request E CostOptimizerAgent self request w
  = (Ok (failure_result CostOptimizerAgent e), w).
Proof.
  intros Ht Hf.
  unfold process_request, try_except, dispatch, cost_dispatch.
  rewrite Ht. cbn [py_eq_str String.eqb Ascii.eqb Bool.eqb].
  unfold _generate_cost_reduction_strategies, bind at 1, lift. now rewrite Hf.
Qed.

(** C5: the code does not do this.  With the modules as they are, no
    call of [process_request] returns [success: True]: every strategy
    that exists reads [datetime] in a module that never imports it, after
    the gateway has already returned its text.  So a [network_summary], a
    [cost_reduction] or an [executive_summary] request whose formatting
    runs sends its prompt, drops the text it gets back and returns
    [success: False] with the error [name 'datetime' is not defined]. *)
Theorem strategies_drop_the_gateway_text E self w :
  ns E = repo_namespaces ->
  (forall c request,
     exists e w', process_request E c self request w = (Ok (failure_result c e), w') /\
                  is_success (failure_result c e) = false) /\
  (forall request context,
     dict_get "analysis_type" request (PStr "general") = PStr "network_summary" ->
     _format_network_context E (dict_get "provider_data" request (PDict [])) = Ok context ->
     process_request E NetworkAnalyzerAgent self request w
       = (Ok (failure_result NetworkAnalyzerAgent name_error_datetime),
          sent (build_call self (network_summary_prompt context) 1000
                  default_temperature) w)) /\
  (forall request context,
     dict_get "optimization_type" request (PStr "general") = PStr "cost_reduction" ->
     _format_cost_context E
       (dict_get "provider_data" request (PDict []))
       (dict_get "target_savings" request PNone)
       (dict_get "savings_type" request (PStr "percentage"))
       (dict_get "constraints" request (PDict [])) = Ok context ->
     process_request E CostOptimizerAgent self request w
       = (Ok (failure_result CostOptimizerAgent name_error_datetime),
          sent (build_call self (cost_reduction_prompt context) 1500
                  default_temperature) w)) /\
  (forall request context,
     dict_get "report_type" request (PStr "network_summary") = PStr "executive_summary" ->
     _format_executive_context E (dict_get "data" request (PDict [])) = Ok context ->
     process_request E ReportGeneratorAgent self request w
       = (Ok (failure_result ReportGeneratorAgent name_error_datetime),
          sent (build_call self
                  (executive_summary_prompt
                     (fstr E (dict_get "audience" request (PStr "network_manager")))
                     context)
                  1200 default_temperature) w)).
Proof.
  intros Hns. split; [|split; [|split]].
  - intros c request.
    destruct (dispatch_always_raises E c self request w Hns) as (e & w' & H).
    exists e, w'. unfold process_request, try_except. rewrite H. now split.
  - intros request context Ht Hf.
    unfold process_request, try_except, dispatch, network_dispatch.
    rewrite Ht. cbn [py_eq_str String.eqb Ascii.eqb Bool.eqb].
    now rewrite network_summary_run, Hf.
  - intros request context Ht Hf.
    unfold process_request, try_except, dispatch, cost_dispatch.
    rewrite Ht. cbn [py_eq_str String.eqb Ascii.eqb Bool.eqb].
    now rewrite cost_reduction_run, Hf.
  - intros request context Ht Hf.
    unfold process_request, try_except, dispatch, report_dispatch.
    rewrite Ht. cbn [py_eq_str String.eqb Ascii.eqb Bool.eqb].
    now rewrite executive_summary_run, Hf.
Qed.

Lemma strategies_drop_the_gateway_text_witness :
  process_request Demo.repo_env NetworkAnalyzerAgent Demo.an_agent
    [("analysis_type", PStr "network_summary"); ("provider_data", PDict [])] Demo.fresh
  = (Ok (PDict [("success", PBool false);
                ("error", PStr "name 'datetime' is not defined");
                ("message", PStr "Failed to complete network analysis")]),
     sent (build_call Demo.an_agent (network_summary_prompt "Network Overview") 1000
             default_temperature) Demo.fresh).
Proof.
  apply (proj1 (proj2 (strategies_drop_the_gateway_text Demo.repo_env Demo.an_agent
                         Demo.fresh eq_refl))); reflexivity.
Defined.

(* ----------------------------------------------------------------- *)
(** ** The router *)

Lemma multi_agent_request_run E self q context intent w :
  ns E = repo_namespaces ->
  _handle_multi_agent_request E self q context intent w = (Raise name_error_datetime, w).
Proof.
  intros Hns. unfold _handle_multi_agent_request, bind.
  rewrite Hns. now rewrite now_isoformat_unbound.
Qed.

Lemma classify_multi q :
  occurs complex_keywords q -> primary_agent (_classify_intent q) = "multi_agent".
Proof.
  intros H. apply occurs_iff in H. unfold _classify_intent. now rewrite H.
Qed.

(** C4: the code does not do this.  With the orchestrator module as it
    is, every query in which a complexity keyword occurs makes
    [route_request] raise [NameError]: the multi-agent handler reads
    [datetime], which the module never imports, before it calls any agent,
    and nothing between that line and the caller catches the exception. *)
Theorem multi_agent_route_raises E self q context w :
  ns E = repo_namespaces ->
  occurs complex_keywords q ->
  route_request E self q context w = (Raise name_error_datetime, w).
Proof.
  intros Hns Hq. unfold route_request.
  rewrite (classify_multi q Hq). cbn [String.eqb Ascii.eqb Bool.eqb].
  now apply multi_agent_request_run.
Qed.

Lemma multi_agent_route_raises_witness :
  route_request Demo.repo_env Demo.an_orchestrator
    "Give me a comprehensive review of the network" (PDict []) Demo.fresh
  = (Raise (mkExn NameError "name 'datetime' is not defined"), Demo.fresh).
Proof.
  apply (multi_agent_route_raises Demo.repo_env Demo.an_orchestrator
           "Give me a comprehensive review of the network" (PDict []) Demo.fresh eq_refl).
  exists "comprehensive", "give me a ", " review of the network".
  split; [simpl; auto | reflexivity].
Defined.

(** C8: the code does not do this.  With the orchestrator module as it
    is, the multi-agent handler stops at its first statement: it returns
    no result, so there is no [integrated_response] and no
    [agent_responses], and it leaves the list of gateway calls as it
    found it, so neither an agent nor the integrator has called the
    gateway. *)
Theorem multi_agent_request_never_integrates E self q context intent w :
  ns E = repo_namespaces ->
  (forall r, fst (_handle_multi_agent_request E self q context intent w) <> Ok r) /\
  llm_calls (snd (_handle_multi_agent_request E self q context intent w)) = llm_calls w.
Proof.
  intros Hns. rewrite multi_agent_request_run by exact Hns. split.
  - intros r. discriminate.
  - reflexivity.
Qed.

Lemma multi_agent_request_never_integrates_witness :
  llm_calls
    (snd (_handle_multi_agent_request Demo.repo_env Demo.an_orchestrator
            "a complete picture" (PDict []) (_classify_intent "a complete picture")
            Demo.fresh))
  = [].
Proof.
  apply (proj2 (multi_agent_request_never_integrates Demo.repo_env Demo.an_orchestrator
                  "a complete picture" (PDict []) (_classify_intent "a complete picture")
                  Demo.fresh eq_refl)).
Defined.

Lemma str_in_refl k : str_in k k = true.
Proof. apply str_in_iff. exists EmptyString, EmptyString. simpl. now rewrite str_app_nil_r. Qed.

Lemma str_in_app_l k a b : str_in k a = true -> str_in k (a ++ b) = true.
Proof.
  intros H. apply str_in_iff in H as (pre & post & ->). apply str_in_iff.
  exists pre, (post ++ b)%string. now rewrite !str_app_assoc.
Qed.

Lemma str_in_app_r k a b : str_in k b = true -> str_in k (a ++ b) = true.
Proof.
  intros H. apply str_in_iff in H as (pre & post & ->). apply str_in_iff.
  exists (a ++ pre)%string, post. now rewrite !str_app_assoc.
Qed.

(** Finds a variable piece inside a concatenation. *)
Ltac find_piece :=
  first [ apply str_in_refl
        | apply str_in_app_l; find_piece
        | apply str_in_app_r; find_piece ].

(** The integration prompt holds the three texts it is given. *)
Lemma integration_prompt_embeds q analysis strategies report_content :
  str_in analysis (integration_prompt q analysis strategies report_content) = true /\
  str_in strategies (integration_prompt q analysis strategies report_content) = true /\
  str_in report_content (integration_prompt q analysis strategies report_content) = true.
Proof.
  unfold integration_prompt. cbn [join]. repeat split; find_piece.
Qed.

(** Reached with three results that carry their texts, the integrator
    sends exactly one call, whose prompt holds the three texts, and
    returns what the gateway returns. *)
Lemma integrator_embeds_texts E self q responses r1 r2 r3 analysis strategies report w :
  dict_get "network_analysis" responses (PDict []) = PDict r1 ->
  dict_get "analysis" r1 (PStr "Not available") = PStr analysis ->
  dict_get "cost_optimization" responses (PDict []) = PDict r2 ->
  dict_get "strategies" r2 (PStr "Not available") = PStr strategies ->
  dict_get "report_generation" responses (PDict []) = PDict r3 ->
  dict_get "report_content" r3 (PStr "Not available") = PStr report ->
  exists text,
    _integrate_agent_responses E self q responses w
    = (Ok text,
       sent (build_call (network_analyzer self)
               (integration_prompt q analysis strategies report) 1500
               default_temperature) w) /\
    str_in analysis (integration_prompt q analysis strategies report) = true /\
    str_in strategies (integration_prompt q analysis strategies report) = true /\
    str_in report (integration_prompt q analysis strategies report) = true.
Proof.
  intros H1 H1' H2 H2' H3 H3'.
  destruct (call_llm_run E (network_analyzer self)
              (integration_prompt q analysis strategies report) 1500
              default_temperature w) as (text & Hrun & _).
  exists text. split; [|apply integration_prompt_embeds].
  unfold _integrate_agent_responses, response_text, bind, lift, py_get.
  rewrite H1, H1', H2, H2', H3, H3'. cbn [fstr]. exact Hrun.
Qed.

(** What the multi-agent path does once [datetime] is bound in every
    module: the network agent answers, the [general] cost request and the
    [comprehensive] report request reach methods that no class defines,
    and the one integration call carries the placeholder in their place. *)
Example multi_agent_path_with_datetime_bound :
  map call_prompt
    (llm_calls
       (snd (route_request Demo.patched_env Demo.an_orchestrator "a complete picture"
               (PDict []) Demo.fresh)))
  = [network_summary_prompt "Network Overview";
     integration_prompt "a complete picture" "Real answer line" "Not available"
       "Not available"].
Proof. vm_compute. reflexivity. Qed.

(** *** The conversation log *)

Lemma keeps_ret {A} (a : A) : keeps_history (ret a).
Proof. intros w. reflexivity. Qed.

Lemma keeps_lift {A} (r : result A) : keeps_history (lift r).
Proof. intros w. reflexivity. Qed.

Lemma keeps_bind {A B} (m : M A) (f : A -> M B) :
  keeps_history m -> (forall a, keeps_history (f a)) -> keeps_history (bind m f).
Proof.
  intros Hm Hf w. unfold bind. specialize (Hm w).
  destruct (m w) as [[a|e] w']; simpl in *; [|exact Hm].
  now rewrite Hf.
Qed.

Lemma keeps_try {A} (m : M A) (h : exn -> M A) :
  keeps_history m -> (forall e, keeps_history (h e)) -> keeps_history (try_except m h).
Proof.
  intros Hm Hh w. unfold try_except. specialize (Hm w).
  destruct (m w) as [[a|e] w']; simpl in *; [exact Hm|].
  now rewrite Hh.
Qed.

Lemma keeps_now E globals : keeps_history (now_isoformat E globals).
Proof. intros w. unfold now_isoformat. destruct (str_mem _ _); reflexivity. Qed.

Lemma keeps_call_llm E self prompt max_tokens temperature :
  keeps_history (call_llm E self prompt max_tokens temperature).
Proof.
  intros w. destruct (call_llm_run E self prompt max_tokens temperature w) as (s & -> & _).
  reflexivity.
Qed.

(** Discharges [keeps_history] goals by following the structure of the
    computation. *)
Ltac keeps :=
  repeat first
    [ apply keeps_ret | apply keeps_lift | apply keeps_now | apply keeps_call_llm
    | apply keeps_bind; [|intros ?]
    | apply keeps_try; [|intros ?]
    | match goal with
      | |- keeps_history (if ?b then _ else _) => destruct b
      | |- keeps_history (match ?x with _ => _ end) => destruct x
      end ].

Lemma keeps_process_request E c self request :
  keeps_history (process_request E c self request).
Proof.
  unfold process_request, dispatch. destruct c;
    unfold network_dispatch, cost_dispatch, report_dispatch, missing_method,
      _analyze_provider_performance, _analyze_network_summary,
      _generate_cost_reduction_strategies, _generate_executive_summary,
      _generate_provider_diagnostics_report;
    keeps.
Qed.

Lemma keeps_route_request E self q context :
  keeps_history (route_request E self q context).
Proof.
  unfold route_request.
  destruct (String.eqb _ _).
  - unfold _handle_multi_agent_request, _integrate_agent_responses.
    repeat first
      [ apply keeps_process_request
      | apply keeps_ret | apply keeps_lift | apply keeps_now | apply keeps_call_llm
      | apply keeps_bind; [|intros ?]
      | match goal with
        | |- keeps_history (if ?b then _ else _) => destruct b
        end ].
  - destruct (routes_get _ _) as [[c agent]|].
    + apply keeps_process_request.
    + apply keeps_process_request.
Qed.

Lemma keeps_run_routes E self queries context w :
  conversation_history (run_routes E self queries context w) = conversation_history w.
Proof.
  revert w. induction queries as [|q queries IH]; intros w; simpl; [reflexivity|].
  rewrite IH. apply keeps_route_request.
Qed.

(** C3, as stated, fails: [route_request] never touches the log.  With
    the modules as they are, a route that returns leaves the log empty;
    and with [datetime] bound in every module, where the route succeeds,
    one route and sixty routes alike leave the log empty. *)
Lemma route_request_records_nothing :
  (exists r,
     fst (route_request Demo.repo_env Demo.an_orchestrator "reduce our costs"
            (PDict []) Demo.fresh) = Ok r) /\
  conversation_history
    (snd (route_request Demo.repo_env Demo.an_orchestrator "reduce our costs"
            (PDict []) Demo.fresh)) = [] /\
  (exists r,
     fst (route_request Demo.patched_env Demo.an_orchestrator "reduce our costs"
            (PDict []) Demo.fresh) = Ok r /\ is_success r = true) /\
  conversation_history
    (snd (route_request Demo.patched_env Demo.an_orchestrator "reduce our costs"
            (PDict []) Demo.fresh)) = [] /\
  length (conversation_history
            (run_routes Demo.patched_env Demo.an_orchestrator
               (repeat "reduce our costs" 60) (PDict []) Demo.fresh)) <> 50.
Proof.
  split; [eexists; vm_compute; reflexivity|].
  split; [apply keeps_route_request|].
  split; [eexists; split; vm_compute; reflexivity|].
  split; [apply keeps_route_request|].
  rewrite keeps_run_routes. discriminate.
Qed.

(** The trimming step is [history[-50:]] whether or not it fires. *)
Lemma trim_is_last_50 {A} (history : list A) :
  (if (50 <? length history)%nat then last_50 history else history) = last_50 history.
Proof.
  destruct (50 <? length history)%nat eqn:H; [reflexivity|].
  apply Nat.ltb_ge in H. unfold last_50.
  replace (length history - 50) with 0 by lia. reflexivity.
Qed.

Lemma last_50_short {A} (history : list A) :
  length history <= 50 -> last_50 history = history.
Proof.
  intros H. unfold last_50. replace (length history - 50) with 0 by lia. reflexivity.
Qed.

Lemma last_50_length {A} (history : list A) :
  length (last_50 history) = Nat.min 50 (length history).
Proof. unfold last_50. rewrite length_skipn. lia. Qed.

(** Trimming early does not change what the last fifty are later. *)
Lemma last_50_app {A} (a b : list A) : last_50 (last_50 a ++ b) = last_50 (a ++ b).
Proof.
  unfold last_50. rewrite length_app, length_skipn, length_app.
  destruct (Nat.le_gt_cases (length a) 50) as [Hle|Hgt].
  - replace (length a - 50) with 0 by lia. simpl.
    now replace (length a - 0) with (length a) by lia.
  - assert (skipn (length a - 50) a ++ b = skipn (length a - 50) (a ++ b)) as ->.
    { rewrite skipn_app. replace (length a - 50 - length a) with 0 by lia. reflexivity. }
    rewrite skipn_skipn. f_equal. lia.
Qed.

Lemma add_to_conversation_run E q response w :
  str_mem "datetime" (ns_orchestrator (ns E)) = true ->
  add_to_conversation E q (PDict response) w
  = (Ok tt,
     {| llm_calls := llm_calls w;
        clock_reads := S (clock_reads w);
        conversation_history :=
          last_50 (conversation_history w
                   ++ [conversation_entry E (clock_reads w) q response]) |}).
Proof.
  intros Hdt. unfold add_to_conversation, bind, now_isoformat, lift, py_get.
  rewrite Hdt. cbn [llm_calls clock_reads conversation_history].
  now rewrite trim_is_last_50.
Qed.

Lemma entries_from_length E n interactions :
  length (entries_from E n interactions) = length interactions.
Proof.
  revert n. induction interactions as [|[q r] rest IH]; intros n; simpl;
    [reflexivity | now rewrite IH].
Qed.

(** After any number of recorded interactions the log is the last fifty
    of everything that was ever put into it. *)
Lemma run_adds_history E interactions w :
  str_mem "datetime" (ns_orchestrator (ns E)) = true ->
  length (conversation_history w) <= 50 ->
  conversation_history (run_adds E interactions w)
  = last_50 (conversation_history w ++ entries_from E (clock_reads w) interactions).
Proof.
  intros Hdt. revert w.
  induction interactions as [|[q r] rest IH]; intros w Hlen; simpl.
  - now rewrite app_nil_r, last_50_short.
  - rewrite add_to_conversation_run by exact Hdt. cbn [snd].
    rewrite IH; cbn [conversation_history clock_reads].
    + rewrite last_50_app, <- app_assoc. reflexivity.
    + rewrite last_50_length. lia.
Qed.

(** With the orchestrator module as it is, [add_to_conversation] raises
    before it appends: it reads [datetime] first. *)
Lemma add_to_conversation_unbound E q response w :
  ns E = repo_namespaces ->
  add_to_conversation E q response w = (Raise name_error_datetime, w).
Proof.
  intros Hns. unfold add_to_conversation, bind. rewrite Hns.
  now rewrite now_isoformat_unbound.
Qed.

(** C3, amended. [route_request] itself leaves the conversation log as
    it is; the log grows only through [add_to_conversation], which the
    caller invokes.  Each such call that gets its timestamp appends
    exactly one entry and keeps the fifty most recent: below fifty
    entries the log grows by the new entry, at fifty the oldest entry
    goes.  So after sixty calls on an empty log the log holds exactly
    fifty entries, the fifty most recent in their original order. *)
Theorem conversation_log_is_bounded E self :
  (forall q context w,
     conversation_history (snd (route_request E self q context w))
     = conversation_history w) /\
  (str_mem "datetime" (ns_orchestrator (ns E)) = true ->
   (forall q response w,
      let entry := conversation_entry E (clock_reads w) q response in
      let w' := snd (add_to_conversation E q (PDict response) w) in
      fst (add_to_conversation E q (PDict response) w) = Ok tt /\
      (length (conversation_history w) < 50 ->
         conversation_history w' = conversation_history w ++ [entry]) /\
      (length (conversation_history w) = 50 ->
         conversation_history w' = tl (conversation_history w) ++ [entry])) /\
   (forall interactions w,
      length interactions = 60 ->
      conversation_history w = [] ->
      length (conversation_history (run_adds E interactions w)) = 50 /\
      conversation_history (run_adds E interactions w)
      = skipn 10 (entries_from E (clock_reads w) interactions))).
Proof.
  split; [|intros Hdt; split].
  - intros q context. apply keeps_route_request.
  - intros q response w entry w'. subst w'.
    rewrite add_to_conversation_run by exact Hdt. cbn [fst snd conversation_history].
    split; [reflexivity|]. split; intros Hlen.
    + apply last_50_short. rewrite length_app. simpl. lia.
    + unfold last_50. rewrite length_app. simpl.
      replace (length (conversation_history w) + 1 - 50) with 1 by lia.
      destruct (conversation_history w); [discriminate | reflexivity].
  - intros interactions w Hn Hempty.
    rewrite run_adds_history by (exact Hdt || (rewrite Hempty; simpl; lia)).
    rewrite Hempty. cbn [app]. split.
    + rewrite last_50_length, entries_from_length, Hn. reflexivity.
    + unfold last_50. rewrite entries_from_length, Hn. reflexivity.
Qed.

Lemma conversation_log_is_bounded_witness :
  length (conversation_history (run_adds Demo.patched_env Demo.sixty_interactions
                                  Demo.fresh)) = 50 /\
  conversation_history (run_adds Demo.patched_env Demo.sixty_interactions Demo.fresh)
  = skipn 10 (entries_from Demo.patched_env 0 Demo.sixty_interactions).
Proof.
  apply (proj2 (proj2 (conversation_log_is_bounded Demo.patched_env Demo.an_orchestrator)
                  eq_refl)
           Demo.sixty_interactions Demo.fresh); reflexivity.
Defined.

(* ================================================================= *)
(** * Part III. Further properties of the router, the agents and the gateway *)
(* ================================================================= *)

(* ----------------------------------------------------------------- *)
(** ** Intents and requests *)

Lemma found_in_spec ks s k :
  In k (found_in ks s) <-> In k ks /\ str_in k s = true.
Proof. unfold found_in. rewrite filter_In. reflexivity. Qed.

Lemma found_in_nonempty ks s : any_in ks s = true -> found_in ks s <> [].
Proof.
  intros H. apply any_in_iff in H as (k & Hk & Hs).
  intros Hnil. assert (In k (found_in ks s)) as Hin by (apply found_in_spec; auto).
  rewrite Hnil in Hin. exact Hin.
Qed.

(** The four names an intent can carry. *)
Lemma classify_range q :
  primary_agent (_classify_intent q) = "multi_agent" \/
  primary_agent (_classify_intent q) = "network_analysis" \/
  primary_agent (_classify_intent q) = "cost_optimization" \/
  primary_agent (_classify_intent q) = "report_generation".
Proof.
  unfold _classify_intent.
  repeat match goal with
         | |- context [if ?b then _ else _] => destruct b
         end; simpl; auto.
Qed.

(** X1. The bookkeeping of an intent is consistent with its primary
    agent: it is marked complex exactly when it is the multi-agent
    intent, which names the three agents and records no keyword; every
    other intent names no secondary agent, and each keyword it records
    occurs in the lower-cased query and belongs to the keyword list of its
    primary agent; a cost or a report intent records at least one. *)
Theorem intent_bookkeeping (q : string) :
  (complexity (_classify_intent q) = "complex" <->
   primary_agent (_classify_intent q) = "multi_agent") /\
  (primary_agent (_classify_intent q) = "multi_agent" ->
   secondary_agents (_classify_intent q)
   = ["network_analysis"; "cost_optimization"; "report_generation"] /\
   keywords_found (_classify_intent q) = []) /\
  (primary_agent (_classify_intent q) <> "multi_agent" ->
   secondary_agents (_classify_intent q) = [] /\
   complexity (_classify_intent q) = "simple") /\
  (forall k, In k (keywords_found (_classify_intent q)) ->
     str_in k (lower q) = true /\
     In k (keywords_of (primary_agent (_classify_intent q)))) /\
  (primary_agent (_classify_intent q) = "cost_optimization" \/
   primary_agent (_classify_intent q) = "report_generation" ->
   keywords_found (_classify_intent q) <> []).
Proof.
  unfold _classify_intent.
  destruct (any_in complex_keywords (lower q)) eqn:H1;
    [|destruct (any_in cost_keywords (lower q)) eqn:H2;
      [|destruct (any_in report_keywords (lower q)) eqn:H3;
        [|destruct (any_in analysis_keywords (lower q)) eqn:H4]]];
    cbn [primary_agent secondary_agents complexity keywords_found default_intent app].
  all: split; [split; intros Hc; (discriminate || reflexivity)|].
  all: split; [intros Hc; (discriminate || (split; reflexivity))|].
  all: split; [intros Hc; try (exfalso; apply Hc; reflexivity); split; reflexivity|].
  all: split;
    [intros k Hk; try (apply found_in_spec in Hk; destruct Hk; split; assumption);
     destruct Hk
    |intros [Hc|Hc]; try discriminate; now apply found_in_nonempty].
Qed.

Lemma intent_bookkeeping_witness :
  (str_in "budget" (lower "Reduce the BUDGET") = true /\
   In "budget" (keywords_of (primary_agent (_classify_intent "Reduce the BUDGET")))) /\
  (secondary_agents (_classify_intent "A COMPLETE picture of costs")
   = ["network_analysis"; "cost_optimization"; "report_generation"] /\
   keywords_found (_classify_intent "A COMPLETE picture of costs") = []).
Proof.
  split.
  - apply (proj1 (proj2 (proj2 (proj2 (intent_bookkeeping "Reduce the BUDGET"))))).
    vm_compute. auto.
  - apply (proj1 (proj2 (intent_bookkeeping "A COMPLETE picture of costs"))).
    reflexivity.
Defined.

(** X2. Whatever the query, the context and the intent, the request the
    router builds carries none of the optional keys the agents read, so an
    agent reached through it runs on their defaults: the network agent
    without a provider id, the cost agent without a target or constraints
    and with percentage savings, and the report agent for the audience
    [network_manager], with no focus areas and with empty data (the
    context sits under [provider_data], which the report agent does not
    read). *)
Theorem routed_agents_run_on_defaults E self q context intent :
  dispatch E NetworkAnalyzerAgent self (_build_agent_request q context intent)
  = network_dispatch E self
      (dict_get "analysis_type" (_build_agent_request q context intent) (PStr "general"))
      context PNone /\
  dispatch E CostOptimizerAgent self (_build_agent_request q context intent)
  = cost_dispatch E self
      (dict_get "optimization_type" (_build_agent_request q context intent)
         (PStr "general"))
      PNone (PStr "percentage") context (PDict []) /\
  dispatch E ReportGeneratorAgent self (_build_agent_request q context intent)
  = report_dispatch E self
      (dict_get "report_type" (_build_agent_request q context intent)
         (PStr "network_summary"))
      (PStr "network_manager") (PDict []) (PList []).
Proof.
  unfold dispatch, _build_agent_request.
  repeat match goal with
         | |- context [if ?b then _ else _] => destruct b
         end; repeat split; reflexivity.
Qed.

Lemma route_network E self q context w :
  primary_agent (_classify_intent q) = "network_analysis" ->
  route_request E self q context w
  = process_request E NetworkAnalyzerAgent (network_analyzer self)
      (_build_agent_request q context (_classify_intent q)) w.
Proof. intros H. unfold route_request. now rewrite H. Qed.

Lemma route_cost E self q context w :
  primary_agent (_classify_intent q) = "cost_optimization" ->
  route_request E self q context w
  = process_request E CostOptimizerAgent (cost_optimizer self)
      (_build_agent_request q context (_classify_intent q)) w.
Proof. intros H. unfold route_request. now rewrite H. Qed.

Lemma route_report E self q context w :
  primary_agent (_classify_intent q) = "report_generation" ->
  route_request E self q context w
  = process_request E ReportGeneratorAgent (report_generator self)
      (_build_agent_request q context (_classify_intent q)) w.
Proof. intros H. unfold route_request. now rewrite H. Qed.

Lemma route_multi E self q context w :
  primary_agent (_classify_intent q) = "multi_agent" ->
  route_request E self q context w
  = _handle_multi_agent_request E self q context (_classify_intent q) w.
Proof. intros H. unfold route_request. now rewrite H. Qed.

(** X3. The fallback of the router is dead code: every intent is the
    multi-agent intent or names one of the three routes, each bound to the
    agent of its own class, so [route_request] never takes the branch
    that calls [_handle_general_query]. *)
Theorem general_query_is_unreachable (self : orchestrator) (q : string) :
  let name := primary_agent (_classify_intent q) in
  name = "multi_agent" \/
  (name = "network_analysis" /\
   routes_get name (agent_routes self) = Some (NetworkAnalyzerAgent, network_analyzer self)) \/
  (name = "cost_optimization" /\
   routes_get name (agent_routes self) = Some (CostOptimizerAgent, cost_optimizer self)) \/
  (name = "report_generation" /\
   routes_get name (agent_routes self) = Some (ReportGeneratorAgent, report_generator self)).
Proof.
  cbv zeta. destruct (classify_range q) as [H|[H|[H|H]]]; rewrite H; auto 10.
Qed.

(** X4. Only five strategies exist.  Any other [analysis_type],
    [optimization_type] or [report_type], a missing one and one that is
    not a string included, makes [process_request] return
    [success: False] with the [AttributeError] of a method that no class
    defines, without a call to the gateway and without any other effect. *)
Theorem only_five_strategies_exist E self request w :
  (py_eq_str (dict_get "analysis_type" request (PStr "general")) "provider_performance"
     = false ->
   py_eq_str (dict_get "analysis_type" request (PStr "general")) "network_summary"
     = false ->
   exists name,
     process_request E NetworkAnalyzerAgent self request w
     = (Ok (failure_result NetworkAnalyzerAgent (missing NetworkAnalyzerAgent name)), w)) /\
  (py_eq_str (dict_get "optimization_type" request (PStr "general")) "cost_reduction"
     = false ->
   exists name,
     process_request E CostOptimizerAgent self request w
     = (Ok (failure_result CostOptimizerAgent (missing CostOptimizerAgent name)), w)) /\
  (py_eq_str (dict_get "report_type" request (PStr "network_summary")) "executive_summary"
     = false ->
   py_eq_str (dict_get "report_type" request (PStr "network_summary"))
     "provider_diagnostics" = false ->
   exists name,
     process_request E ReportGeneratorAgent self request w
     = (Ok (failure_result ReportGeneratorAgent (missing ReportGeneratorAgent name)), w)).
Proof.
  unfold process_request, try_except, dispatch, network_dispatch, cost_dispatch,
    report_dispatch.
  split; [|split].
  - intros -> ->.
    repeat match goal with
           | |- context [if ?b then _ else _] => destruct b
           end; eexists; reflexivity.
  - intros ->.
    repeat match goal with
           | |- context [if ?b then _ else _] => destruct b
           end; eexists; reflexivity.
  - intros -> ->.
    repeat match goal with
           | |- context [if ?b then _ else _] => destruct b
           end; eexists; reflexivity.
Qed.

Lemma only_five_strategies_exist_witness :
  exists name,
    process_request Demo.patched_env ReportGeneratorAgent Demo.an_agent
      [("report_type", PStr "comprehensive"); ("data", PDict [])] Demo.fresh
    = (Ok (failure_result ReportGeneratorAgent (missing ReportGeneratorAgent name)),
       Demo.fresh).
Proof.
  apply (proj2 (proj2 (only_five_strategies_exist Demo.patched_env Demo.an_agent
                         [("report_type", PStr "comprehensive"); ("data", PDict [])]
                         Demo.fresh)));
    reflexivity.
Defined.

(** X5. A query routed to the cost agent in which neither [save] nor
    [reduce] occurs (one matched through [cost], [savings], [budget] and
    the like) always fails, in every environment: the router asks for the
    [general] optimisation, which reaches [_general_cost_analysis], a
    method no class defines; the caller gets [success: False] and nothing
    is sent to the gateway. *)
Theorem cost_route_without_save_or_reduce_fails E self q context w :
  primary_agent (_classify_intent q) = "cost_optimization" ->
  str_in "save" (lower q) = false ->
  str_in "reduce" (lower q) = false ->
  route_request E self q context w
  = (Ok (PDict [("success", PBool false);
                ("error",
                 PStr "'CostOptimizerAgent' object has no attribute '_general_cost_analysis'");
                ("message", PStr "Failed to complete cost optimization analysis")]),
     w).
Proof.
  intros Hp Hs Hr. rewrite route_cost by exact Hp.
  unfold process_request, try_except, dispatch, _build_agent_request.
  rewrite Hp, Hs, Hr. reflexivity.
Qed.

Lemma cost_route_without_save_or_reduce_fails_witness :
  fst (route_request Demo.patched_env Demo.an_orchestrator
         "How large are our savings against budget?" (PDict []) Demo.fresh)
  = Ok (PDict [("success", PBool false);
               ("error",
                PStr "'CostOptimizerAgent' object has no attribute '_general_cost_analysis'");
               ("message", PStr "Failed to complete cost optimization analysis")]).
Proof.
  rewrite (cost_route_without_save_or_reduce_fails Demo.patched_env Demo.an_orchestrator
             "How large are our savings against budget?" (PDict []) Demo.fresh);
    reflexivity.
Defined.

(** X6. A query routed to the report agent is answered without its
    context: route it with any two contexts and the result, the calls sent
    and the whole state afterwards are the same. *)
Theorem report_route_ignores_context E self q context context' w :
  primary_agent (_classify_intent q) = "report_generation" ->
  route_request E self q context w = route_request E self q context' w.
Proof.
  intros Hp. rewrite !route_report by exact Hp.
  unfold process_request, dispatch, _build_agent_request. rewrite Hp.
  cbn [String.eqb Ascii.eqb Bool.eqb].
  destruct (str_in "executive" (lower q) || str_in "summary" (lower q)); reflexivity.
Qed.

Lemma report_route_ignores_context_witness :
  route_request Demo.patched_env Demo.an_orchestrator "Download the summary"
    (PDict [("total_providers", PInt 120)]) Demo.fresh
  = route_request Demo.patched_env Demo.an_orchestrator "Download the summary"
      (PDict []) Demo.fresh.
Proof.
  apply (report_route_ignores_context Demo.patched_env Demo.an_orchestrator
           "Download the summary" (PDict [("total_providers", PInt 120)]) (PDict [])
           Demo.fresh).
  reflexivity.
Defined.

(* ----------------------------------------------------------------- *)
(** ** What a route returns *)

Lemma calls_step_refl w : calls_step w w.
Proof. now left. Qed.

(** A strategy that formats, calls the gateway, reads the clock and
    wraps the text, in any module and any environment. *)
Lemma strategy_good E self (formatted : result string) prompt_of max_tokens globals
    (wrap : string -> string -> pyval) w :
  (forall text timestamp, agent_result true (wrap text timestamp)) ->
  strategy_outcome w
    ((context <- lift formatted ;;
      text <- call_llm E self (prompt_of context) max_tokens default_temperature ;;
      timestamp <- now_isoformat E globals ;;
      ret (wrap text timestamp)) w).
Proof.
  intros Hwrap. unfold bind at 1, lift. destruct formatted as [context|e].
  - unfold bind at 1.
    destruct (call_llm_run E self (prompt_of context) max_tokens default_temperature w)
      as (s & -> & _).
    unfold bind, now_isoformat, ret, sent, strategy_outcome, calls_step.
    destruct (str_mem "datetime" globals); cbn [fst snd llm_calls conversation_history];
      (split; [right; eexists; reflexivity | split; [reflexivity | auto]]).
  - unfold strategy_outcome. cbn [fst snd]. split; [apply calls_step_refl | now split].
Qed.

Lemma missing_method_good c name w :
  strategy_outcome w (@missing_method pyval c name w).
Proof.
  unfold strategy_outcome, missing_method, lift, no_attribute. cbn [fst snd].
  split; [apply calls_step_refl | now split].
Qed.

Ltac agent_result_tac :=
  intros; eexists; split; [reflexivity | repeat split; intros; reflexivity].

Lemma dispatch_good E c self request w :
  strategy_outcome w (dispatch E c self request w).
Proof.
  destruct c; unfold dispatch, network_dispatch, cost_dispatch, report_dispatch;
    repeat match goal with
           | |- context [if ?b then _ else _] => destruct b
           end;
    try apply missing_method_good.
  - unfold _analyze_provider_performance.
    apply (strategy_good E self _ provider_performance_prompt _ _
             (fun analysis timestamp =>
                PDict [("success", PBool true);
                       ("analysis_type", PStr "provider_performance");
                       ("provider_id", dict_get "provider_id" request PNone);
                       ("analysis", PStr analysis);
                       ("timestamp", PStr timestamp)])).
    agent_result_tac.
  - unfold _analyze_network_summary.
    apply (strategy_good E self _ network_summary_prompt _ _
             (fun analysis timestamp =>
                PDict [("success", PBool true);
                       ("analysis_type", PStr "network_summary");
                       ("analysis", PStr analysis);
                       ("timestamp", PStr timestamp)])).
    agent_result_tac.
  - unfold _generate_cost_reduction_strategies.
    apply (strategy_good E self _ cost_reduction_prompt _ _
             (fun strategies timestamp =>
                PDict [("success", PBool true);
                       ("optimization_type", PStr "cost_reduction");
                       ("target_savings", dict_get "target_savings" request PNone);
                       ("savings_type",
                        dict_get "savings_type" request (PStr "percentage"));
                       ("strategies", PStr strategies);
                       ("timestamp", PStr timestamp)])).
    agent_result_tac.
  - unfold _generate_executive_summary.
    apply (strategy_good E self _
             (executive_summary_prompt
                (fstr E (dict_get "audience" request (PStr "network_manager")))) _ _
             (fun report timestamp =>
                PDict [("success", PBool true);
                       ("report_type", PStr "executive_summary");
                       ("audience", dict_get "audience" request (PStr "network_manager"));
                       ("report_content", PStr report);
                       ("timestamp", PStr timestamp)])).
    agent_result_tac.
  - unfold _generate_provider_diagnostics_report.
    apply (strategy_good E self _ provider_diagnostics_prompt _ _
             (fun report timestamp =>
                PDict [("success", PBool true);
                       ("report_type", PStr "provider_diagnostics");
                       ("report_content", PStr report);
                       ("timestamp", PStr timestamp)])).
    agent_result_tac.
Qed.

Lemma failure_is_agent_result c e : agent_result false (failure_result c e).
Proof. unfold failure_result. agent_result_tac. Qed.

(** Every call of [process_request] returns an agent result, sends at
    most one call and leaves the log alone. *)
Lemma process_request_result E c self request w :
  exists v w' b,
    process_request E c self request w = (Ok v, w') /\
    agent_result b v /\
    calls_step w w' /\
    conversation_history w' = conversation_history w.
Proof.
  pose proof (dispatch_good E c self request w) as (Hc & Hh & Hv).
  unfold process_request, try_except.
  destruct (dispatch E c self request w) as [[v|e] w']; cbn [fst snd] in *.
  - exists v, w', true. auto.
  - exists (failure_result c e), w', false. cbn [ret].
    split; [reflexivity|]. split; [apply failure_is_agent_result | auto].
Qed.

Lemma not_complex_not_multi q :
  ~ occurs complex_keywords q -> primary_agent (_classify_intent q) <> "multi_agent".
Proof.
  intros H. apply not_occurs_iff in H. unfold _classify_intent. rewrite H.
  repeat match goal with
         | |- context [if ?b then _ else _] => destruct b
         end; discriminate.
Qed.

(** The single-agent path is one call of [process_request]. *)
Lemma route_single E self q context w :
  primary_agent (_classify_intent q) <> "multi_agent" ->
  exists c agent,
    route_request E self q context w
    = process_request E c agent (_build_agent_request q context (_classify_intent q)) w.
Proof.
  intros Hn. destruct (classify_range q) as [H|[H|[H|H]]]; [contradiction| | |].
  - eexists _, _. now apply route_network.
  - eexists _, _. now apply route_cost.
  - eexists _, _. now apply route_report.
Qed.

(** X7. A query without a complexity keyword is always answered: in
    every environment, whatever the transport, the formatters and the
    clock do, [route_request] raises nothing and returns a dict whose
    [success] is a boolean, having sent at most one call to the gateway. *)
Theorem single_agent_route_returns E self q context w :
  ~ occurs complex_keywords q ->
  exists d w' b,
    route_request E self q context w = (Ok (PDict d), w') /\
    dict_get "success" d PNone = PBool b /\
    calls_step w w'.
Proof.
  intros Hq. destruct (route_single E self q context w (not_complex_not_multi q Hq))
    as (c & agent & ->).
  destruct (process_request_result E c agent
              (_build_agent_request q context (_classify_intent q)) w)
    as (v & w' & b & Hrun & (d & -> & Hs & _) & Hc & _).
  exists d, w', b. auto.
Qed.

Lemma single_agent_route_returns_witness :
  exists d w' b,
    route_request Demo.timeout_env Demo.an_orchestrator "Benchmark our providers"
      (PDict []) Demo.fresh = (Ok (PDict d), w') /\
    dict_get "success" d PNone = PBool b /\
    calls_step Demo.fresh w'.
Proof.
  apply (single_agent_route_returns Demo.timeout_env Demo.an_orchestrator
           "Benchmark our providers" (PDict []) Demo.fresh).
  apply not_occurs_iff. reflexivity.
Defined.



Lemma last_skipn {A} (l : list A) n d :
  n < length l -> last (skipn n l) d = last l d.
Proof.
  revert n. induction l as [|x l IH]; intros n H; simpl in H; [lia|].
  destruct n as [|n]; [reflexivity|].
  cbn [skipn]. rewrite IH by lia.
  destruct l; [simpl in H; lia | reflexivity].
Qed.

(** X9. No result that [route_request] returns says which agent produced
    it or carries key insights: it is a dict without [primary_agent] and
    without [key_insights].  So the entry that [add_to_conversation]
    builds from it always reads [primary_agent: unknown] and
    [key_insights: []]; and where [add_to_conversation] gets its
    timestamp, that entry is the newest of the log. *)
Theorem conversation_entries_never_name_the_agent E self q context w v w' :
  route_request E self q context w = (Ok v, w') ->
  exists d,
    v = PDict d /\
    (forall n q',
       conversation_entry E n q' d
       = PDict [("timestamp", PStr (isoformat_now E n));
                ("user_query", PStr q');
                ("response_summary",
                 PDict [("success", dict_get "success" d (PBool false));
                        ("primary_agent", PStr "unknown");
                        ("key_insights", PList [])])]) /\
    (str_mem "datetime" (ns_orchestrator (ns E)) = true ->
     forall q' w0,
       last (conversation_history (snd (add_to_conversation E q' v w0))) PNone
       = conversation_entry E (clock_reads w0) q' d).
Proof.
  intros Hrun.
  assert (exists b, agent_result b v) as (b & d & -> & _ & Hp & Hk).
  { destruct (String.eqb_spec (primary_agent (_classify_intent q)) "multi_agent")
      as [Hm|Hm].
    - rewrite route_multi in Hrun by exact Hm.
      unfold _handle_multi_agent_request, bind in Hrun.
      repeat match type of Hrun with
             | context [match ?x with _ => _ end] => destruct x; try discriminate
             end.
      injection Hrun as <- _. exists true. agent_result_tac.
    - destruct (route_single E self q context w Hm) as (c & agent & Heq).
      rewrite Heq in Hrun.
      destruct (process_request_result E c agent
                  (_build_agent_request q context (_classify_intent q)) w)
        as (v1 & w1 & b & Hr & Ha & _).
      rewrite Hr in Hrun. injection Hrun as <- _. now exists b. }
  exists d. split; [reflexivity|]. split.
  - intros n q'. unfold conversation_entry. now rewrite Hp, Hk.
  - intros Hdt q' w0. rewrite add_to_conversation_run by exact Hdt.
    cbn [snd conversation_history]. unfold last_50.
    rewrite last_skipn by (rewrite length_app; simpl; lia).
    apply last_last.
Qed.

Lemma conversation_entries_never_name_the_agent_witness :
  conversation_entry Demo.patched_env 7 "reduce our costs"
    [("success", PBool true);
     ("optimization_type", PStr "cost_reduction");
     ("target_savings", PNone);
     ("savings_type", PStr "percentage");
     ("strategies", PStr "Real answer line");
     ("timestamp", PStr "2024-05-01T09:00:00.")]
  = PDict [("timestamp", PStr "2024-05-01T09:00:00.0000000");
           ("user_query", PStr "reduce our costs");
           ("response_summary",
            PDict [("success", PBool true);
                   ("primary_agent", PStr "unknown");
                   ("key_insights", PList [])])].
Proof.
  assert (route_request Demo.patched_env Demo.an_orchestrator "reduce our costs"
            (PDict []) Demo.fresh
          = (Ok (PDict [("success", PBool true);
                        ("optimization_type", PStr "cost_reduction");
                        ("target_savings", PNone);
                        ("savings_type", PStr "percentage");
                        ("strategies", PStr "Real answer line");
                        ("timestamp", PStr "2024-05-01T09:00:00.")]),
             snd (route_request Demo.patched_env Demo.an_orchestrator "reduce our costs"
                    (PDict []) Demo.fresh))) as Hrun
    by (vm_compute; reflexivity).
  destruct (conversation_entries_never_name_the_agent _ _ _ _ _ _ _ Hrun)
    as (d & Hv & Hentry & _).
  injection Hv as <-. apply Hentry.
Defined.

(* ----------------------------------------------------------------- *)
(** ** The gateway on unexpected responses *)

Lemma dict_get_absent k d x : dict_has k d = false -> dict_get k d x = x.
Proof.
  induction d as [|[k' v] d IH]; simpl; [reflexivity|].
  destruct (String.eqb k k'); [discriminate | exact IH].
Qed.

Lemma dict_get_present k d x y : dict_has k d = true -> dict_get k d x = dict_get k d y.
Proof.
  induction d as [|[k' v] d IH]; simpl; [discriminate|].
  destruct (String.eqb k k'); [reflexivity | exact IH].
Qed.

(** What [call_llm] returns once the transport has answered [resp]. *)
Lemma call_llm_answered E self prompt max_tokens temperature w resp :
  post E (length (llm_calls w)) (build_call self prompt max_tokens temperature) = Ok resp ->
  fst (call_llm E self prompt max_tokens temperature w)
  = match raise_for_status resp with
    | Raise e => fst (llm_handler e w)
    | Ok _ =>
        match json resp with
        | Raise e => fst (llm_handler e w)
        | Ok body =>
            match py_get body "predictions" (PList [PDict []]) with
            | Raise e => fst (llm_handler e w)
            | Ok predictions =>
                match py_getitem0 predictions with
                | Raise e => fst (llm_handler e w)
                | Ok first =>
                    match py_get first "generated_text" (PStr "") with
                    | Raise e => fst (llm_handler e w)
                    | Ok generated_text =>
                        match _clean_llm_response generated_text with
                        | Raise e => fst (llm_handler e w)
                        | Ok text => Ok text
                        end
                    end
                end
            end
        end
    end.
Proof.
  intros Hpost.
  unfold call_llm, try_except, llm_attempt, bind, requests_post, lift. rewrite Hpost.
  assert (forall e w1 w2, fst (llm_handler e w1) = fst (llm_handler e w2)) as Hh.
  { intros e w1 w2. unfold llm_handler.
    destruct (is_timeout e), (is_request_exception e); reflexivity. }
  destruct (raise_for_status resp) as [u|e]; [|apply Hh].
  destruct (json resp) as [body|e]; [|apply Hh].
  destruct (py_get body "predictions" (PList [PDict []])) as [predictions|e]; [|apply Hh].
  destruct (py_getitem0 predictions) as [first|e]; [|apply Hh].
  destruct (py_get first "generated_text" (PStr "")) as [generated_text|e]; [|apply Hh].
  destruct (_clean_llm_response generated_text) as [text|e]; [reflexivity | apply Hh].
Qed.

(** X10. A response that parses but carries no text does not produce a
    sentinel: when the body is an object without [predictions], or its
    first prediction is an object without [generated_text], [call_llm]
    returns the empty string. *)
Theorem body_without_text_gives_empty_string E self prompt max_tokens temperature w
    resp body :
  post E (length (llm_calls w)) (build_call self prompt max_tokens temperature) = Ok resp ->
  raise_for_status resp = Ok tt ->
  json resp = Ok (PDict body) ->
  (dict_has "predictions" body = false \/
   exists first rest,
     dict_has "predictions" body = true /\
     dict_get "predictions" body PNone = PList (PDict first :: rest) /\
     dict_has "generated_text" first = false) ->
  fst (call_llm E self prompt max_tokens temperature w) = Ok "".
Proof.
  intros Hpost Hstatus Hjson Hbody.
  rewrite (call_llm_answered _ _ _ _ _ _ _ Hpost), Hstatus, Hjson. cbn [py_get].
  destruct Hbody as [Habs | (first & rest & Hhas & Hget & Habs)].
  - rewrite dict_get_absent by exact Habs. reflexivity.
  - rewrite (dict_get_present _ _ _ PNone Hhas), Hget. cbn [py_getitem0 py_get].
    rewrite dict_get_absent by exact Habs. reflexivity.
Qed.

Lemma body_without_text_gives_empty_string_witness :
  fst (call_llm
         (Demo.an_env
            (fun _ _ => Ok {| raise_for_status := Ok tt;
                              json := Ok (PDict [("error", PStr "model is loading")]) |})
            repo_namespaces (Ok "Network Overview"))
         Demo.an_agent "Summarise the network" 1000 default_temperature Demo.fresh)
  = Ok "".
Proof.
  apply (body_without_text_gives_empty_string _ _ _ _ _ _
           {| raise_for_status := Ok tt;
              json := Ok (PDict [("error", PStr "model is loading")]) |}
           [("error", PStr "model is loading")]);
    try reflexivity.
  left. reflexivity.
Defined.

(** X11. An HTTP error status is reported with its text and the body is
    never looked at: when [raise_for_status] raises a request exception
    that is not a timeout, [call_llm] returns the sentinel that embeds
    [str(e)], whatever [json] would have returned. *)
Theorem http_error_status_is_reported E self prompt max_tokens temperature w resp e :
  post E (length (llm_calls w)) (build_call self prompt max_tokens temperature) = Ok resp ->
  raise_for_status resp = Raise e ->
  exn_cls e = RequestException ->
  fst (call_llm E self prompt max_tokens temperature w)
  = Ok ("Sorry, I encountered an error: " ++ exn_str e)%string.
Proof.
  intros Hpost Hstatus Hcls.
  rewrite (call_llm_answered _ _ _ _ _ _ _ Hpost), Hstatus.
  unfold llm_handler, is_timeout, is_request_exception. rewrite Hcls. reflexivity.
Qed.

Lemma http_error_status_is_reported_witness :
  fst (call_llm
         (Demo.an_env
            (fun _ _ =>
               Ok {| raise_for_status :=
                       Raise (mkExn RequestException "404 Client Error: Not Found");
                     json := Ok (Demo.body_with "ignored") |})
            repo_namespaces (Ok "Network Overview"))
         Demo.an_agent "Summarise the network" 1000 default_temperature Demo.fresh)
  = Ok "Sorry, I encountered an error: 404 Client Error: Not Found".
Proof.
  apply (http_error_status_is_reported _ _ _ _ _ _
           {| raise_for_status :=
                Raise (mkExn RequestException "404 Client Error: Not Found");
              json := Ok (Demo.body_with "ignored") |}
           (mkExn RequestException "404 Client Error: Not Found"));
    reflexivity.
Defined.

(** X12. A response of the wrong shape ends in the generic sentinel:
    when the decoded body is not an object, or its [predictions] is an
    empty list, or the [generated_text] of its first prediction is not a
    string, [call_llm] returns the fixed text for unexpected errors. *)
Theorem malformed_body_gives_generic_sentinel E self prompt max_tokens temperature w
    resp v :
  post E (length (llm_calls w)) (build_call self prompt max_tokens temperature) = Ok resp ->
  raise_for_status resp = Ok tt ->
  json resp = Ok v ->
  (is_dict v = false \/
   (exists body, v = PDict body /\
      dict_get "predictions" body (PList [PDict []]) = PList []) \/
   (exists body first rest,
      v = PDict body /\
      dict_get "predictions" body (PList [PDict []]) = PList (PDict first :: rest) /\
      is_str (dict_get "generated_text" first (PStr "")) = false)) ->
  fst (call_llm E self prompt max_tokens temperature w)
  = Ok "An unexpected error occurred. Please try again.".
Proof.
  intros Hpost Hstatus Hjson Hshape.
  rewrite (call_llm_answered _ _ _ _ _ _ _ Hpost), Hstatus, Hjson.
  destruct Hshape as [Hv | [(body & -> & Hp) | (body & first & rest & -> & Hp & Hg)]].
  - destruct v; try discriminate; reflexivity.
  - cbn [py_get]. rewrite Hp. reflexivity.
  - cbn [py_get]. rewrite Hp. cbn [py_getitem0 py_get].
    destruct (dict_get "generated_text" first (PStr "")); try discriminate; reflexivity.
Qed.

Lemma malformed_body_gives_generic_sentinel_witness :
  fst (call_llm
         (Demo.an_env
            (fun _ _ => Ok {| raise_for_status := Ok tt;
                              json := Ok (PDict [("predictions", PList [])]) |})
            repo_namespaces (Ok "Network Overview"))
         Demo.an_agent "Summarise the network" 1000 default_temperature Demo.fresh)
  = Ok "An unexpected error occurred. Please try again.".
Proof.
  apply (malformed_body_gives_generic_sentinel _ _ _ _ _ _
           {| raise_for_status := Ok tt;
              json := Ok (PDict [("predictions", PList [])]) |}
           (PDict [("predictions", PList [])]));
    try reflexivity.
  right. left. now exists [("predictions", PList [])].
Defined.

(* ----------------------------------------------------------------- *)
(** ** What cleaning guarantees *)

Lemma str_length_app a b :
  String.length (a ++ b) = String.length a + String.length b.
Proof. induction a as [|c a IH]; simpl; [reflexivity | now rewrite IH]. Qed.

Lemma take_length n s : String.length (take n s) = Nat.min n (String.length s).
Proof.
  revert s. induction n as [|n IH]; intros [|c s]; simpl; try reflexivity.
  now rewrite IH.
Qed.

Lemma take_prefix n s : exists post, s = (take n s ++ post)%string.
Proof.
  revert s. induction n as [|n IH]; intros s.
  - exists s. reflexivity.
  - destruct s as [|c s]; [now exists EmptyString|].
    destruct (IH s) as [post Hp]. exists post. simpl. now rewrite <- Hp.
Qed.

Lemma lstrip_suffix s : exists pre, s = (pre ++ lstrip s)%string.
Proof.
  induction s as [|c s [pre IH]]; simpl; [now exists EmptyString|].
  destruct (is_space c).
  - exists (String c pre). simpl. now rewrite <- IH.
  - now exists EmptyString.
Qed.

Lemma rstrip_prefix s : exists post, s = (rstrip s ++ post)%string.
Proof.
  induction s as [|c s [post IH]]; simpl; [now exists EmptyString|].
  destruct (rstrip s) as [|x r] eqn:Hr.
  - destruct (is_space c).
    + now exists (String c s).
    + exists s. reflexivity.
  - exists post. simpl in *. now rewrite <- IH.
Qed.

(** What [strip] returns is a stretch of what it is given. *)
Lemma strip_sub s : exists pre post, s = (pre ++ strip s ++ post)%string.
Proof.
  unfold strip. destruct (lstrip_suffix s) as [pre Hpre].
  destruct (rstrip_prefix (lstrip s)) as [post Hpost].
  exists pre, post. now rewrite <- Hpost.
Qed.

Lemma str_in_sub m a pre post :
  str_in m a = true -> str_in m (pre ++ a ++ post) = true.
Proof. intros H. apply str_in_app_r, str_in_app_l, H. Qed.

Lemma starts_with_before m a c b :
  has_char c m = false ->
  starts_with m (a ++ String c b) = true -> starts_with m a = true.
Proof.
  revert a. induction m as [|x m IH]; intros a Hc H; [reflexivity|].
  simpl in Hc. apply orb_false_iff in Hc as [Hx Hm].
  destruct a as [|y a]; simpl in *.
  - rewrite Hx in H. discriminate.
  - apply andb_true_iff in H as [Hxy H]. rewrite Hxy. simpl. now apply IH.
Qed.

(** An occurrence of [m] cannot straddle a character that [m] lacks. *)
Lemma str_in_around m a c b :
  has_char c m = false ->
  str_in m (a ++ String c b) = true -> str_in m a = true \/ str_in m b = true.
Proof.
  intros Hc. induction a as [|y a IH]; intros H.
  - cbn [append str_in] in H. apply orb_true_iff in H as [H|H]; [|now right].
    left. apply (starts_with_before m EmptyString c b Hc) in H.
    simpl. now rewrite H.
  - change (String y a ++ String c b)%string with (String y (a ++ String c b)) in H.
    cbn [str_in] in H. apply orb_true_iff in H as [H|H].
    + left. apply (starts_with_before m (String y a) c b Hc) in H.
      cbn [str_in]. now rewrite H.
    + destruct (IH H) as [Ha|Hb]; [left | now right].
      cbn [str_in]. rewrite Ha. apply orb_true_r.
Qed.

Lemma str_in_join m ls :
  has_char LF m = false -> str_in m EmptyString = false ->
  str_in m (join nl ls) = true -> exists l, In l ls /\ str_in m l = true.
Proof.
  intros Hc He. induction ls as [|p ls IH]; intros H.
  - cbn [join] in H. rewrite He in H. discriminate.
  - destruct ls as [|q ls].
    + exists p. split; [now left | exact H].
    + rewrite join_cons in H.
      change (p ++ nl ++ join nl (q :: ls))%string
        with (p ++ String LF (join nl (q :: ls)))%string in H.
      destruct (str_in_around _ _ _ _ Hc H) as [Hp|Hr].
      * exists p. split; [now left | exact Hp].
      * destruct (IH Hr) as (l & Hl & Hs). exists l. split; [now right | exact Hs].
Qed.

Lemma lower_join ls : lower (join nl ls) = join nl (map lower ls).
Proof.
  induction ls as [|p ls IH]; [reflexivity|].
  destruct ls as [|q ls]; [reflexivity|].
  rewrite join_cons. cbn [map]. rewrite join_cons, !lower_app, IH. reflexivity.
Qed.

Lemma marker_facts m :
  In m skip_phrases ->
  has_char LF m = false /\ has_char "."%char m = false /\
  str_in m EmptyString = false /\ str_in m ".." = false.
Proof.
  intros H. repeat destruct H as [<-|H]; try (repeat split; reflexivity). destruct H.
Qed.

(** No marker occurs in the rejoined and stripped lines. *)
Lemma kept_text_is_unmarked text m :
  In m skip_phrases ->
  str_in m (lower (strip (join nl (filter keeps_line (split LF text))))) = false.
Proof.
  intros Hm. destruct (marker_facts m Hm) as (Hlf & _ & He & _).
  apply not_true_iff_false. intros H.
  destruct (strip_sub (join nl (filter keeps_line (split LF text))))
    as (pre & post & Hsub).
  assert (str_in m (lower (join nl (filter keeps_line (split LF text)))) = true) as Hj.
  { rewrite Hsub, !lower_app. now apply str_in_sub. }
  rewrite lower_join in Hj.
  destruct (str_in_join _ _ Hlf He Hj) as (l & Hl & Hs).
  apply in_map_iff in Hl as (line & <- & Hline).
  apply filter_In in Hline as [_ Hkeep]. unfold keeps_line in Hkeep.
  apply negb_true_iff in Hkeep.
  assert (any_in skip_phrases (lower line) = true) as Hany
    by (apply any_in_iff; now exists m).
  congruence.
Qed.

(** X13. Whatever the model generated, no role marker is left in what
    [_clean_llm_response] returns: none of the five markers occurs in the
    cleaned text in any letter case, on any line, cut or not. *)
Theorem cleaned_text_has_no_role_marker (text : string) :
  any_in skip_phrases (lower (clean_text text)) = false.
Proof.
  apply not_true_iff_false. intros H.
  apply any_in_iff in H as (m & Hm & H).
  destruct (marker_facts m Hm) as (_ & Hdot & _ & Hdots).
  pose proof (kept_text_is_unmarked text m Hm) as Hkept.
  rewrite clean_text_is_clean_spec in H. unfold clean_spec in H.
  destruct (2000 <? String.length _)%nat.
  - rewrite lower_app in H.
    change (lower "...") with (String "."%char "..") in H.
    destruct (str_in_around _ _ _ _ Hdot H) as [Ht|Hd]; [|congruence].
    destruct (take_prefix 2000 (strip (join nl (filter keeps_line (split LF text)))))
      as [post Hp].
    rewrite Hp, lower_app in Hkept.
    rewrite (str_in_app_l _ _ _ Ht) in Hkept. discriminate.
  - congruence.
Qed.

(** X14. The cleaned text is bounded: it is never longer than 2003
    characters, the 2000 kept and the three of the ellipsis. *)
Theorem cleaned_text_is_bounded (text : string) :
  String.length (clean_text text) <= 2003.
Proof.
  rewrite clean_text_is_clean_spec. unfold clean_spec.
  destruct (2000 <? String.length _)%nat eqn:Hlen.
  - rewrite str_length_app, take_length.
    change (String.length "...") with 3. lia.
  - apply Nat.ltb_ge in Hlen. lia.
Qed.

(** X15. A clean answer passes through unchanged: a text in which no
    role marker occurs, without white space at either end and of at most
    2000 characters, is returned as it is, line breaks included. *)
Theorem clean_answer_passes_unchanged (text : string) :
  any_in skip_phrases (lower text) = false ->
  strip text = text ->
  String.length text <= 2000 ->
  clean_text text = text.
Proof.
  intros Hno Hstrip Hlen.
  rewrite clean_text_is_clean_spec. unfold clean_spec.
  rewrite filter_all by (intros line; apply unmarked_lines; exact Hno).
  rewrite join_split, Hstrip.
  apply Nat.ltb_ge in Hlen. now rewrite Hlen.
Qed.

Lemma clean_answer_passes_unchanged_witness :
  clean_text ("Top performers:" ++ nl ++ "- Dr. Smith (score 97)")
  = ("Top performers:" ++ nl ++ "- Dr. Smith (score 97)")%string.
Proof.
  apply clean_answer_passes_unchanged; vm_compute; try reflexivity.
  repeat (apply le_S_n; apply le_n_S); lia.
Defined.

Lemma head_ok_lstrip s : head_ok (lstrip s) = true.
Proof.
  induction s as [|c s IH]; [reflexivity|]. simpl.
  destruct (is_space c) eqn:Hc; [exact IH|]. simpl. now rewrite Hc.
Qed.

Lemma lstrip_head_ok s : head_ok s = true -> lstrip s = s.
Proof.
  destruct s as [|c s]; [reflexivity|]. simpl. intros H.
  apply negb_true_iff in H. now rewrite H.
Qed.

Lemma head_ok_rstrip s : head_ok s = true -> head_ok (rstrip s) = true.
Proof.
  destruct s as [|c s]; [reflexivity|]. simpl. intros H.
  destruct (rstrip s); [|exact H].
  apply negb_true_iff in H. rewrite H. simpl. now rewrite H.
Qed.

Lemma rstrip_idem s : rstrip (rstrip s) = rstrip s.
Proof.
  induction s as [|c s IH]; [reflexivity|]. simpl.
  destruct (rstrip s) as [|x r] eqn:Hr.
  - destruct (is_space c) eqn:Hc; [reflexivity|]. simpl. now rewrite Hc.
  - change (rstrip (String c (String x r)))
      with (match rstrip (String x r) with
            | EmptyString => if is_space c then EmptyString else String c EmptyString
            | r' => String c r'
            end).
    now rewrite IH.
Qed.

Lemma strip_idem s : strip (strip s) = strip s.
Proof.
  unfold strip.
  rewrite (lstrip_head_ok (rstrip (lstrip s)))
    by (apply head_ok_rstrip, head_ok_lstrip).
  apply rstrip_idem.
Qed.

Lemma rstrip_app_fixed a t :
  rstrip t = t -> t <> EmptyString -> rstrip (a ++ t) = (a ++ t)%string.
Proof.
  intros Ht Hne. induction a as [|c a IH]; [exact Ht|].
  simpl. rewrite IH. destruct (a ++ t)%string eqn:Hat; [|reflexivity].
  destruct a; simpl in Hat; [contradiction | discriminate].
Qed.

Lemma take_exact a b n : String.length a = n -> take n (a ++ b) = a.
Proof.
  revert n. induction a as [|c a IH]; intros n Hn; simpl in Hn; subst n.
  - destruct b; reflexivity.
  - simpl. now rewrite IH.
Qed.

(** What cleaning returns has no white space at either end. *)
Lemma strip_clean_text text : strip (clean_text text) = clean_text text.
Proof.
  rewrite clean_text_is_clean_spec. unfold clean_spec.
  set (C := strip (join nl (filter keeps_line (split LF text)))).
  assert (head_ok C = true) as Hhead
    by (apply head_ok_rstrip, head_ok_lstrip).
  destruct (2000 <? String.length C)%nat eqn:Hlen; [|apply strip_idem].
  apply Nat.ltb_lt in Hlen. unfold strip.
  assert (head_ok (take 2000 C ++ "...") = true) as Hh.
  { destruct C as [|c C']; [simpl in Hlen; lia | exact Hhead]. }
  rewrite (lstrip_head_ok _ Hh).
  apply rstrip_app_fixed; [reflexivity | discriminate].
Qed.

(** X16. Cleaning is idempotent: cleaning a text that has already been
    cleaned returns it as it is, also when the first cleaning cut it and
    appended the ellipsis. *)
Theorem clean_text_is_idempotent (text : string) :
  clean_text (clean_text text) = clean_text text.
Proof.
  assert (any_in skip_phrases (lower (clean_text text)) = false) as Hno.
  { apply not_true_iff_false. intros H. apply any_in_iff in H as (m & Hm & H).
    destruct (marker_facts m Hm) as (_ & Hdot & _ & Hdots).
    pose proof (kept_text_is_unmarked text m Hm) as Hkept.
    rewrite clean_text_is_clean_spec in H. unfold clean_spec in H.
    destruct (2000 <? String.length _)%nat; [|congruence].
    rewrite lower_app in H. change (lower "...") with (String "."%char "..") in H.
    destruct (str_in_around _ _ _ _ Hdot H) as [Ht|Hd]; [|congruence].
    destruct (take_prefix 2000 (strip (join nl (filter keeps_line (split LF text)))))
      as [post Hp].
    rewrite Hp, lower_app in Hkept.
    rewrite (str_in_app_l _ _ _ Ht) in Hkept. discriminate. }
  rewrite (clean_text_is_clean_spec (clean_text text)). unfold clean_spec.
  rewrite filter_all by (intros line; apply unmarked_lines; exact Hno).
  rewrite join_split, strip_clean_text.
  destruct (2000 <? String.length (clean_text text))%nat eqn:Hlong; [|reflexivity].
  apply Nat.ltb_lt in Hlong.
  rewrite clean_text_is_clean_spec in *. unfold clean_spec in *.
  set (C := strip (join nl (filter keeps_line (split LF text)))) in *.
  destruct (2000 <? String.length C)%nat eqn:Hlen.
  - apply Nat.ltb_lt in Hlen.
    rewrite take_exact; [reflexivity|].
    rewrite take_length. lia.
  - apply Nat.ltb_ge in Hlen. lia.
Qed.

(* ----------------------------------------------------------------- *)
(** ** Choosing the endpoint and building an agent *)

Lemma first_endpoint_for_some model endpoints name :
  first_endpoint_for model endpoints = Some name ->
  In name endpoints /\ str_in model (lower name) = true.
Proof.
  induction endpoints as [|e rest IH]; simpl; [discriminate|].
  destruct (str_in model (lower e)) eqn:He.
  - intros H. injection H as <-. auto.
  - intros H. destruct (IH H). auto.
Qed.

Lemma first_endpoint_for_none model endpoints :
  (forall e, In e endpoints -> str_in model (lower e) = false) ->
  first_endpoint_for model endpoints = None.
Proof.
  induction endpoints as [|e rest IH]; intros H; simpl; [reflexivity|].
  rewrite (H e (or_introl eq_refl)). apply IH. intros e' He'. apply H. now right.
Qed.

Lemma first_endpoint_for_found model pre e post :
  (forall e', In e' pre -> str_in model (lower e') = false) ->
  str_in model (lower e) = true ->
  first_endpoint_for model (pre ++ e :: post) = Some e.
Proof.
  induction pre as [|p pre IH]; intros Hpre He; simpl.
  - now rewrite He.
  - rewrite (Hpre p (or_introl eq_refl)). apply IH; [|exact He].
    intros e' He'. apply Hpre. now right.
Qed.

Lemma first_preferred_some models endpoints name :
  first_preferred models endpoints = Some name -> In name endpoints.
Proof.
  induction models as [|m rest IH]; simpl; [discriminate|].
  destruct (first_endpoint_for m endpoints) as [n|] eqn:Hm.
  - intros H. injection H as <-. now apply first_endpoint_for_some in Hm.
  - exact IH.
Qed.

Lemma first_preferred_skips before models endpoints :
  (forall m e, In m before -> In e endpoints -> str_in m (lower e) = false) ->
  first_preferred (before ++ models) endpoints = first_preferred models endpoints.
Proof.
  induction before as [|b before IH]; intros H; simpl; [reflexivity|].
  rewrite first_endpoint_for_none.
  - apply IH. intros m e Hm He. apply H; [now right | exact He].
  - intros e He. apply H; [now left | exact He].
Qed.

(** X17. [_find_best_model_endpoint] raises nothing and returns the name
    of a listed endpoint whenever the listing succeeds with at least one
    endpoint; it returns the built-in default exactly in the other cases,
    a listing that raises and a listing that is empty. *)
Theorem best_endpoint_is_listed_or_default (listing : result (list string)) :
  (forall e, listing = Raise e -> _find_best_model_endpoint listing = default_endpoint) /\
  (listing = Ok [] -> _find_best_model_endpoint listing = default_endpoint) /\
  (forall endpoints,
     listing = Ok endpoints -> endpoints <> [] ->
     In (_find_best_model_endpoint listing) endpoints).
Proof.
  split; [|split].
  - intros e ->. reflexivity.
  - intros ->. reflexivity.
  - intros endpoints -> Hne. unfold _find_best_model_endpoint.
    destruct (first_preferred preferred_models endpoints) as [name|] eqn:Hp.
    + now apply first_preferred_some in Hp.
    + destruct endpoints as [|e rest]; [contradiction | now left].
Qed.

Lemma best_endpoint_is_listed_or_default_witness :
  In (_find_best_model_endpoint (Ok ["gpt-proxy"; "embedding-small"]))
     ["gpt-proxy"; "embedding-small"].
Proof.
  apply (proj2 (proj2 (best_endpoint_is_listed_or_default
                         (Ok ["gpt-proxy"; "embedding-small"])))).
  - reflexivity.
  - discriminate.
Defined.

(** X18. The choice follows the order of the preferred models before
    the order of the listing: if the lower-cased name of no endpoint
    holds a model preferred over [model], the first listed endpoint whose
    lower-cased name holds [model] is chosen, wherever it stands in the
    listing; and if no name holds any preferred model, the first listed
    endpoint is chosen. *)
Theorem best_endpoint_follows_preference (endpoints : list string) :
  (forall before model after pre e post,
     preferred_models = before ++ model :: after ->
     endpoints = pre ++ e :: post ->
     (forall m' e', In m' before -> In e' endpoints -> str_in m' (lower e') = false) ->
     (forall e', In e' pre -> str_in model (lower e') = false) ->
     str_in model (lower e) = true ->
     _find_best_model_endpoint (Ok endpoints) = e) /\
  (forall e rest,
     endpoints = e :: rest ->
     (forall m e', In m preferred_models -> In e' endpoints ->
        str_in m (lower e') = false) ->
     _find_best_model_endpoint (Ok endpoints) = e).
Proof.
  split.
  - intros before model after pre e post Hmodels -> Hbefore Hpre He.
    unfold _find_best_model_endpoint. rewrite Hmodels.
    rewrite first_preferred_skips by exact Hbefore.
    cbn [first_preferred]. now rewrite first_endpoint_for_found.
  - intros e rest -> Hnone. unfold _find_best_model_endpoint.
    rewrite <- (app_nil_r preferred_models).
    rewrite first_preferred_skips by exact Hnone. reflexivity.
Qed.

Lemma best_endpoint_follows_preference_witness :
  _find_best_model_endpoint
    (Ok ["team-Databricks-Dolly-v2-12b"; "embedding-small"; "Databricks-MPT-30B-Instruct-prod"])
  = "Databricks-MPT-30B-Instruct-prod".
Proof.
  apply (proj1 (best_endpoint_follows_preference
                  ["team-Databricks-Dolly-v2-12b"; "embedding-small";
                   "Databricks-MPT-30B-Instruct-prod"])
           ["databricks-llama-2-70b-chat"] "databricks-mpt-30b-instruct"
           ["databricks-dolly-v2-12b"]
           ["team-Databricks-Dolly-v2-12b"; "embedding-small"]
           "Databricks-MPT-30B-Instruct-prod" []);
    try reflexivity.
  - intros m' e' [<-|[]] [<-|[<-|[<-|[]]]]; reflexivity.
  - intros e' [<-|[<-|[]]]; reflexivity.
Defined.

(** X19. Where the name [dbutils] is not bound, as in [base_agent.py]
    itself, which neither imports nor defines it, the workspace URL is
    always the placeholder, reading the token raises [NameError] from
    inside the handler of its own [try], and so no agent and no
    orchestrator can be constructed, whatever the endpoints and the
    secrets are. *)
Theorem agents_need_dbutils (globals : list string) (d : dbutils) :
  str_mem "dbutils" globals = false ->
  _get_workspace_url globals d = "https://your-workspace.databricks.com" /\
  (forall listing given,
     BaseAgent_init globals d listing given
     = Raise (mkExn NameError "name 'dbutils' is not defined")) /\
  (forall listing,
     AgentOrchestrator_init globals d listing
     = Raise (mkExn NameError "name 'dbutils' is not defined")).
Proof.
  intros H.
  assert (forall listing given,
            BaseAgent_init globals d listing given
            = Raise (mkExn NameError "name 'dbutils' is not defined")) as Hinit.
  { intros listing given.
    unfold BaseAgent_init, _get_databricks_token, dbutils_name. now rewrite H. }
  split; [|split].
  - unfold _get_workspace_url, dbutils_name. now rewrite H.
  - exact Hinit.
  - intros listing. unfold AgentOrchestrator_init. now rewrite Hinit.
Qed.

Lemma agents_need_dbutils_witness :
  BaseAgent_init base_agent_globals
    {| secrets_get := fun _ _ => Ok "s3cret"; notebook_api_token := Ok "t0ken" |}
    (Ok ["databricks-llama-2-70b-chat"]) None
  = Raise (mkExn NameError "name 'dbutils' is not defined").
Proof.
  apply (proj1 (proj2 (agents_need_dbutils base_agent_globals
                         {| secrets_get := fun _ _ => Ok "s3cret";
                            notebook_api_token := Ok "t0ken" |}
                         eq_refl))).
Defined.

(** X20. Where [dbutils] is bound, only the token decides whether an
    agent can be constructed: with a token from the secret scope, or
    failing that from the notebook context, construction succeeds with
    that token even if listing the endpoints raises and the workspace URL
    cannot be read; it fails exactly when both sources of the token fail,
    with the exception of the second. *)
Theorem construction_needs_only_a_token (globals : list string) (d : dbutils)
    (listing : result (list string)) (given : option string) :
  str_mem "dbutils" globals = true ->
  (forall t,
     secrets_get d "network-app" "databricks-token" = Ok t \/
     ((exists e, secrets_get d "network-app" "databricks-token" = Raise e) /\
      notebook_api_token d = Ok t) ->
     exists a, BaseAgent_init globals d listing given = Ok a /\ token a = t) /\
  (forall e,
     BaseAgent_init globals d listing given = Raise e <->
     (exists e0, secrets_get d "network-app" "databricks-token" = Raise e0) /\
     notebook_api_token d = Raise e).
Proof.
  intros H. unfold BaseAgent_init, _get_databricks_token, dbutils_name. rewrite H.
  split.
  - intros t [Hs | [[e0 Hs] Hn]]; rewrite Hs; [|rewrite Hn]; eexists; split; reflexivity.
  - intros e. destruct (secrets_get d "network-app" "databricks-token") as [t|e0].
    + split; [discriminate | intros [[e1 He1] _]; discriminate].
    + destruct (notebook_api_token d) as [t|e1].
      * split; [discriminate | intros [_ Hn]; discriminate].
      * split.
        -- intros Heq. injection Heq as <-. split; [now exists e0 | reflexivity].
        -- intros [_ Hn]. now injection Hn as <-.
Qed.

Lemma construction_needs_only_a_token_witness :
  exists a,
    BaseAgent_init ("dbutils" :: base_agent_globals)
      {| secrets_get := fun _ key =>
                          if String.eqb key "databricks-token" then Ok "dapi-123"
                          else Raise (mkExn OtherException "Secret does not exist");
         notebook_api_token := Ok "ctx-token" |}
      (Raise (mkExn OtherException "listing failed")) None = Ok a /\
    token a = "dapi-123".
Proof.
  apply (proj1 (construction_needs_only_a_token ("dbutils" :: base_agent_globals)
                  {| secrets_get := fun _ key =>
                                      if String.eqb key "databricks-token"
                                      then Ok "dapi-123"
                                      else Raise (mkExn OtherException
                                                    "Secret does not exist");
                     notebook_api_token := Ok "ctx-token" |}
                  (Raise (mkExn OtherException "listing failed")) None eq_refl)).
  left. reflexivity.
Defined.

(* ----------------------------------------------------------------- *)
(** ** The conversation summary, the integrator and the log *)







(** X23. The bound of the log is an invariant of [add_to_conversation]
    wherever it gets its timestamp: whatever the log held before, it
    holds at most fifty entries after a call; and recording any number of
    interactions on a log of at most fifty entries leaves the last fifty
    of the old entries followed by the new ones, in order. *)
Theorem conversation_log_invariant E :
  str_mem "datetime" (ns_orchestrator (ns E)) = true ->
  (forall q response w,
     length (conversation_history (snd (add_to_conversation E q (PDict response) w)))
     <= 50) /\
  (forall interactions w,
     length (conversation_history w) <= 50 ->
     conversation_history (run_adds E interactions w)
     = last_50 (conversation_history w ++ entries_from E (clock_reads w) interactions) /\
     length (conversation_history (run_adds E interactions w))
     = Nat.min 50 (length (conversation_history w) + length interactions)).
Proof.
  intros Hdt. split.
  - intros q response w. rewrite add_to_conversation_run by exact Hdt.
    cbn [snd conversation_history]. rewrite last_50_length. lia.
  - intros interactions w Hlen.
    rewrite run_adds_history by assumption. split; [reflexivity|].
    now rewrite last_50_length, length_app, entries_from_length.
Qed.

Lemma conversation_log_invariant_witness :
  length (conversation_history
            (run_adds Demo.patched_env Demo.sixty_interactions
               (run_adds Demo.patched_env Demo.sixty_interactions Demo.fresh)))
  = 50.
Proof.
  rewrite (proj2 (proj2 (conversation_log_invariant Demo.patched_env eq_refl)
                    Demo.sixty_interactions
                    (run_adds Demo.patched_env Demo.sixty_interactions Demo.fresh)
                    ltac:(vm_compute; repeat constructor))).
  vm_compute. reflexivity.
Defined.

(* ----------------------------------------------------------------- *)
(** ** The provider context *)

Lemma find_provider_miss str_other ps provider_id :
  (forall p, In p ps ->
     py_str str_other (dict_get "id" p PNone) <> py_str str_other provider_id) ->
  find_provider str_other (map PDict ps) provider_id = Ok None.
Proof.
  induction ps as [|p ps IH]; intros H; [reflexivity|].
  cbn [map find_provider].
  destruct (String.eqb_spec (py_str str_other (dict_get "id" p PNone))
              (py_str str_other provider_id)) as [Heq|_].
  - destruct (H p (or_introl eq_refl) Heq).
  - apply IH. intros p' Hp'. apply H. now right.
Qed.

Lemma find_provider_hit str_other pre p post provider_id :
  (forall p', In p' pre ->
     py_str str_other (dict_get "id" p' PNone) <> py_str str_other provider_id) ->
  py_str str_other (dict_get "id" p PNone) = py_str str_other provider_id ->
  find_provider str_other (map PDict pre ++ PDict p :: post) provider_id = Ok (Some p).
Proof.
  induction pre as [|x pre IH]; intros Hpre Hp; cbn [map app find_provider].
  - rewrite Hp, String.eqb_refl. reflexivity.
  - destruct (String.eqb_spec (py_str str_other (dict_get "id" x PNone))
                (py_str str_other provider_id)) as [Heq|_].
    + destruct (Hpre x (or_introl eq_refl) Heq).
    + apply IH; [|exact Hp]. intros p' Hp'. apply Hpre. now right.
Qed.

(** X24. [_format_provider_context] answers with the fixed sentence
    [Provider data not available for analysis.] and raises nothing
    whenever there is nothing to describe: when the provider id is
    empty, zero or [None], whatever the data is; when the data is a dict
    without [providers]; and when no listed provider has an id that
    prints like the requested one. *)
Theorem provider_context_unavailable (str_other : pyval -> string) :
  (forall data provider_id,
     py_truthy provider_id = false ->
     NetworkAnalyzerAgent_format_provider_context str_other data provider_id
     = Ok "Provider data not available for analysis.") /\
  (forall d provider_id,
     dict_has "providers" d = false ->
     NetworkAnalyzerAgent_format_provider_context str_other (PDict d) provider_id
     = Ok "Provider data not available for analysis.") /\
  (forall d ps provider_id,
     dict_has "providers" d = true ->
     dict_get "providers" d PNone = PList (map PDict ps) ->
     (forall p, In p ps ->
        py_str str_other (dict_get "id" p PNone) <> py_str str_other provider_id) ->
     NetworkAnalyzerAgent_format_provider_context str_other (PDict d) provider_id
     = Ok "Provider data not available for analysis.").
Proof.
  unfold NetworkAnalyzerAgent_format_provider_context. split; [|split].
  - intros data provider_id ->. reflexivity.
  - intros d provider_id Hd. cbn [py_contains]. rewrite Hd.
    destruct (negb (py_truthy provider_id)); reflexivity.
  - intros d ps provider_id Hhas Hget Hmiss.
    destruct (negb (py_truthy provider_id)); [reflexivity|].
    cbn [py_contains py_getitem]. rewrite Hhas, Hget. cbn [py_iter].
    now rewrite find_provider_miss.
Qed.

Lemma provider_context_unavailable_witness :
  NetworkAnalyzerAgent_format_provider_context (fun _ => "?")
    (PDict Samples.a_network) (PStr "P-99")
  = Ok "Provider data not available for analysis.".
Proof.
  apply (proj2 (proj2 (provider_context_unavailable (fun _ => "?")))
           Samples.a_network [Samples.dr_adams; Samples.dr_baker] (PStr "P-99"));
    try reflexivity.
  intros p [<-|[<-|[]]]; discriminate.
Defined.

(** X25. When the data lists providers, [_format_provider_context]
    describes the first listed provider whose id prints like the requested
    one (ids are compared through [str], so a number and its decimal
    string match), with its network status spelled out and [N/A] for each
    network average the data does not carry. *)
Theorem provider_context_describes_first_match (str_other : pyval -> string)
    d pre p post provider_id :
  py_truthy provider_id = true ->
  dict_has "providers" d = true ->
  dict_get "providers" d PNone = PList (map PDict pre ++ PDict p :: post) ->
  (forall p', In p' pre ->
     py_str str_other (dict_get "id" p' PNone) <> py_str str_other provider_id) ->
  py_str str_other (dict_get "id" p PNone) = py_str str_other provider_id ->
  p <> [] ->
  dict_has "network_averages" d = false ->
  NetworkAnalyzerAgent_format_provider_context str_other (PDict d) provider_id
  = Ok (provider_details
          (py_str str_other (dict_get "name" p PNone))
          (py_str str_other (dict_get "organization" p PNone))
          (py_str str_other (dict_get "score" p PNone))
          (py_str str_other (dict_get "efficiency_gain" p PNone))
          (py_str str_other (dict_get "quality_rating" p PNone))
          (py_str str_other (dict_get "avg_cost" p PNone))
          (py_str str_other (dict_get "patient_volume" p PNone))
          (py_str str_other (dict_get "clinical_groups" p PNone))
          (if py_truthy (dict_get "in_network" p PNone)
           then "In Network" else "Out of Network")
          "N/A" "N/A" "N/A").
Proof.
  intros Hid Hhas Hget Hpre Hp Hne Havg.
  unfold NetworkAnalyzerAgent_format_provider_context.
  rewrite Hid. cbn [negb py_contains py_getitem]. rewrite Hhas, Hget. cbn [py_iter].
  rewrite find_provider_hit by assumption.
  destruct p as [|kv p]; [contradiction|].
  unfold network_average. cbn [py_get].
  rewrite dict_get_absent by exact Havg. reflexivity.
Qed.

Lemma provider_context_describes_first_match_witness :
  exists text,
    NetworkAnalyzerAgent_format_provider_context (fun _ => "None")
      (PDict Samples.a_network) (PStr "P-42") = Ok text /\
    str_in "- Name: Dr. Baker" text = true /\
    str_in "- Network Status: Out of Network" text = true.
Proof.
  eexists. split.
  - apply (provider_context_describes_first_match (fun _ => "None") Samples.a_network
             [Samples.dr_adams] Samples.dr_baker [] (PStr "P-42"));
      try reflexivity; try discriminate.
    intros p' [<-|[]]. discriminate.
  - split; vm_compute; reflexivity.
Defined.


